(** * M-Pesa payment demo: a shallow embedding of [server.js] and of the
    payment wizard [MpesaPayment.tsx], with the properties of the
    specification stated and proved over it.

  Conventions of the embedding.

  - A JavaScript string is a [string]: a sequence of code units, here the
    code units below 256 (Latin-1).  Every string operation of the source
    ([replace(/\D/g,'')], [startsWith], [substring], [length], the regular
    expression [/^254[0-9]{9}$/], [Buffer.from(s)]) is defined on code
    units, so the functions below are the source's on that domain.
  - A JavaScript number is a [jsnum]: NaN, the two infinities, or a finite
    binary64 value, kept as the rational it stands for.  The two zeros are
    one value: no function of the source tells them apart.
  - A request field that JSON may omit is an [option].
  - Handlers are functions in a state and exception monad over the
    transaction store and the log of outbound calls. *)

From Stdlib Require Import Bool Arith NArith ZArith QArith Qround Lia List.
From Stdlib Require Import Ascii String.
Import ListNotations.

Set Warnings "-register-all".
Local Open Scope list_scope.
Local Open Scope string_scope.

(** ** JavaScript strings *)

Module JsString.

Definition code (c : ascii) : N := N_of_ascii c.

(** [\d] of a JavaScript regular expression: the ten ASCII digits. *)
Definition is_digit (c : ascii) : bool :=
  (48 <=? code c)%N && (code c <=? 57)%N.

(** [s.replace(/\D/g, '')] *)
Fixpoint strip_non_digits (s : string) : string :=
  match s with
  | EmptyString => EmptyString
  | String c r =>
      if is_digit c then String c (strip_non_digits r) else strip_non_digits r
  end.

(** [s.startsWith(p)] *)
Definition startsWith (s p : string) : bool := String.prefix p s.

(** [s.substring(n)] *)
Fixpoint substring_from (n : nat) (s : string) : string :=
  match n, s with
  | O, _ => s
  | S _, EmptyString => EmptyString
  | S m, String _ r => substring_from m r
  end.

(** [s.slice(0, n)] for [0 <= n] *)
Fixpoint slice_to (n : nat) (s : string) : string :=
  match n, s with
  | O, _ => EmptyString
  | S _, EmptyString => EmptyString
  | S m, String c r => String c (slice_to m r)
  end.

Fixpoint all_digits (s : string) : bool :=
  match s with
  | EmptyString => true
  | String c r => is_digit c && all_digits r
  end.

(** [xs.join(sep)] *)
Fixpoint join (sep : string) (xs : list string) : string :=
  match xs with
  | [] => EmptyString
  | [x] => x
  | x :: r => x ++ sep ++ join sep r
  end.

(** White space of [StrWhiteSpaceChar] among the code units below 256. *)
Definition is_space (c : ascii) : bool :=
  ((9 <=? code c)%N && (code c <=? 13)%N)
  || (code c =? 32)%N || (code c =? 160)%N.

Fixpoint trim_start (s : string) : string :=
  match s with
  | EmptyString => EmptyString
  | String c r => if is_space c then trim_start r else s
  end.

Fixpoint trim_end (s : string) : string :=
  match s with
  | EmptyString => EmptyString
  | String c r =>
      match trim_end r with
      | EmptyString => if is_space c then EmptyString else String c EmptyString
      | r' => String c r'
      end
  end.

Definition trim (s : string) : string := trim_end (trim_start s).

(** The longest run of digits in front of [s], and what follows it. *)
Fixpoint span_digits (s : string) : string * string :=
  match s with
  | EmptyString => (EmptyString, EmptyString)
  | String c r =>
      if is_digit c
      then let (d, k) := span_digits r in (String c d, k)
      else (EmptyString, s)
  end.

(** Value of a run of digits in base [b]; a letter counts from ten. *)
Definition digit_value (c : ascii) : N :=
  if is_digit c then (code c - 48)%N
  else if ((97 <=? code c)%N && (code c <=? 122)%N) then (code c - 87)%N
  else if ((65 <=? code c)%N && (code c <=? 90)%N) then (code c - 55)%N
  else 255%N.

Fixpoint digits_value_from (b acc : N) (s : string) : N :=
  match s with
  | EmptyString => acc
  | String c r => digits_value_from b (acc * b + digit_value c)%N r
  end.

Definition digits_value (b : N) (s : string) : N := digits_value_from b 0%N s.

Fixpoint all_digits_in (b : N) (s : string) : bool :=
  match s with
  | EmptyString => true
  | String c r => (digit_value c <? b)%N && all_digits_in b r
  end.

(** Truthiness of a string value that may be [undefined]. *)
Definition truthy (v : option string) : bool :=
  match v with
  | Some (String _ _) => true
  | _ => false
  end.

(** [v || d] for a string or [undefined] [v]. *)
Definition or_else (v : option string) (d : string) : string :=
  match v with
  | Some (String c r) => String c r
  | _ => d
  end.

End JsString.

(** ** Phone numbers *)

Module Phone.
Import JsString.

(** [formatPhoneNumber] of server.js *)
Definition formatPhoneNumber (phone : string) : string :=
  let phone := strip_non_digits phone in
  let phone :=
    if startsWith phone "0" then "254" ++ substring_from 1 phone else phone in
  let phone :=
    if negb (startsWith phone "254") then "254" ++ phone else phone in
  phone.

(** [/^254[0-9]{9}$/.test(s)] *)
Definition test_canonical (s : string) : bool :=
  match s with
  | String "2" (String "5" (String "4" r)) =>
      (String.length r =? 9)%nat && all_digits r
  | _ => false
  end.

End Phone.

(** ** JavaScript numbers *)

Module JsNumber.
Import JsString.

Inductive jsnum : Type :=
| NaN
| PosInf
| NegInf
| Fin (q : Q).

(** [m * 10^k] *)
Definition scale10 (m : Z) (k : Z) : Q :=
  if (0 <=? k)%Z then inject_Z (m * 10 ^ k)
  else Qmake m (Z.to_pos (10 ^ (- k))).

(** [2^e] *)
Definition pow2 (e : Z) : Q :=
  if (0 <=? e)%Z then inject_Z (2 ^ e)
  else Qmake 1 (Z.to_pos (2 ^ (- e))).

(** The integer nearest to [q], a tie going to the even one. *)
Definition round_half_even (q : Q) : Z :=
  let f := Qfloor q in
  match Qcompare (q - inject_Z f) (1 # 2) with
  | Lt => f
  | Gt => (f + 1)%Z
  | Eq => if Z.even f then f else (f + 1)%Z
  end.

(** [floor (log2 a)] for a positive rational [a]. *)
Definition floor_log2 (a : Q) : Z :=
  let e := (Z.log2 (Qnum a) - Z.log2 (Zpos (Qden a)))%Z in
  if Qle_bool (pow2 e) a then e else (e - 1)%Z.

(** The Number value of a non-negative real: the nearest binary64 value, a
    tie going to the even significand; 53 bits of significand, exponents
    from -1022 (below which the spacing stays that of the subnormal numbers)
    to 1023 (above which the value is infinite). *)
Definition binary64 (a : Q) : jsnum :=
  if Qle_bool a 0 then Fin 0
  else
    let e := Z.max (floor_log2 a) (-1022) in
    let ulp := pow2 (e - 52) in
    let v := Qred (inject_Z (round_half_even (a / ulp)) * ulp) in
    if Qle_bool (pow2 1024) v then PosInf else Fin v.

Definition negate (x : jsnum) : jsnum :=
  match x with
  | NaN => NaN
  | PosInf => NegInf
  | NegInf => PosInf
  | Fin q => Fin (- q)
  end.

(** An optional sign in front of a literal. *)
Definition split_sign (s : string) : bool * string :=
  match s with
  | String "-" r => (true, r)
  | String "+" r => (false, r)
  | _ => (false, s)
  end.

(** [ExponentPart], when one is in front of [s]. *)
Definition exponent_part (s : string) : option (Z * string) :=
  match s with
  | String c r =>
      if (code c =? 101)%N || (code c =? 69)%N then
        let (neg, r1) := split_sign r in
        let (ds, r2) := span_digits r1 in
        match ds with
        | EmptyString => None
        | _ =>
            let e := Z.of_N (digits_value 10 ds) in
            Some (if neg then (- e)%Z else e, r2)
        end
      else None
  | EmptyString => None
  end.

(** The longest [StrUnsignedDecimalLiteral] (other than [Infinity]) in front
    of [s]: its mathematical value and what follows it. *)
Definition decimal_prefix (s : string) : option (Q * string) :=
  let (ip, r1) := span_digits s in
  let '(fp, r2, dot) :=
    match r1 with
    | String "." r =>
        let (fp, r2) := span_digits r in (fp, r2, true)
    | _ => (EmptyString, r1, false)
    end in
  match ip, fp with
  | EmptyString, EmptyString => None
  | _, _ =>
      let m := Z.of_N (digits_value 10 (ip ++ fp)) in
      let k := (- Z.of_nat (String.length fp))%Z in
      match exponent_part r2 with
      | Some (e, r3) => Some (scale10 m (k + e), r3)
      | None => Some (scale10 m k, r2)
      end
  end.

(** The longest [StrDecimalLiteral] in front of [s]. *)
Definition signed_prefix (s : string) : option (jsnum * string) :=
  let (neg, u) := split_sign s in
  if startsWith u "Infinity"
  then Some (if neg then NegInf else PosInf, substring_from 8 u)
  else
    match decimal_prefix u with
    | Some (q, r) =>
        Some (if neg then negate (binary64 q) else binary64 q, r)
    | None => None
    end.

(** [parseFloat(s)] for a string [s]. *)
Definition parseFloat (s : string) : jsnum :=
  match signed_prefix (trim_start s) with
  | Some (x, _) => x
  | None => NaN
  end.

(** [0x], [0o] and [0b] literals of [StringToNumber]. *)
Definition radix_literal (s : string) : option jsnum :=
  match s with
  | String "0" (String c r) =>
      let b :=
        if (code c =? 120)%N || (code c =? 88)%N then Some 16%N
        else if (code c =? 111)%N || (code c =? 79)%N then Some 8%N
        else if (code c =? 98)%N || (code c =? 66)%N then Some 2%N
        else None in
      match b, r with
      | Some b, String _ _ =>
          if all_digits_in b r
          then Some (binary64 (inject_Z (Z.of_N (digits_value b r))))
          else None
      | _, _ => None
      end
  | _ => None
  end.

(** [Number(s)] for a string [s]. *)
Definition StringToNumber (s : string) : jsnum :=
  match trim s with
  | EmptyString => Fin 0
  | t =>
      match radix_literal t with
      | Some x => x
      | None =>
          match signed_prefix t with
          | Some (x, EmptyString) => x
          | _ => NaN
          end
      end
  end.

(** [Number(v)] for a string or [undefined]. *)
Definition ToNumber (v : option string) : jsnum :=
  match v with
  | Some s => StringToNumber s
  | None => NaN
  end.

(** [isNaN(v)] *)
Definition isNaN (v : option string) : bool :=
  match ToNumber v with
  | NaN => true
  | _ => false
  end.

(** [parseFloat(v)]: [undefined] reads as the string "undefined". *)
Definition parseFloat_value (v : option string) : jsnum :=
  match v with
  | Some s => parseFloat s
  | None => NaN
  end.

(** [x < 1] *)
Definition lt_one (x : jsnum) : bool :=
  match x with
  | NaN => false
  | PosInf => false
  | NegInf => true
  | Fin q => negb (Qle_bool 1 q)
  end.

(** [Math.round(x)]: the nearest integer, a tie going up. *)
Definition Math_round (x : jsnum) : jsnum :=
  match x with
  | Fin q => Fin (inject_Z (Qfloor (q + (1 # 2))))
  | other => other
  end.

End JsNumber.
(** ** [Buffer.from(s).toString('base64')] *)

Module Base64.
Import JsString.

(** UTF-8 bytes of a string of code units below 256. *)
Definition utf8_unit (c : ascii) : list N :=
  let n := code c in
  if (n <? 128)%N then [n] else [192 + n / 64; 128 + n mod 64]%N.

Fixpoint utf8 (s : string) : list N :=
  match s with
  | EmptyString => []
  | String c r => (utf8_unit c ++ utf8 r)%list
  end.

(** The base64 alphabet of RFC 4648. *)
Definition sextet_char (n : N) : ascii :=
  ascii_of_N
    (if (n <? 26)%N then n + 65
     else if (n <? 52)%N then n - 26 + 97
     else if (n <? 62)%N then n - 52 + 48
     else if (n =? 62)%N then 43 else 47)%N.

Definition pad : ascii := "="%char.

Fixpoint encode (bs : list N) : string :=
  match bs with
  | [] => EmptyString
  | [a] =>
      String (sextet_char (a / 4))
        (String (sextet_char (a mod 4 * 16))
           (String pad (String pad EmptyString)))
  | [a; b] =>
      String (sextet_char (a / 4))
        (String (sextet_char (a mod 4 * 16 + b / 16))
           (String (sextet_char (b mod 16 * 4))
              (String pad EmptyString)))
  | a :: b :: c :: r =>
      String (sextet_char (a / 4))
        (String (sextet_char (a mod 4 * 16 + b / 16))
           (String (sextet_char (b mod 16 * 4 + c / 64))
              (String (sextet_char (c mod 64)) (encode r))))
  end%N.

(** [Buffer.from(s).toString('base64')] *)
Definition to_base64 (s : string) : string := encode (utf8 s).

(** The inverse reading, [Buffer.from(t, 'base64')], on well-formed text. *)
Definition char_sextet (c : ascii) : option N :=
  let n := code c in
  if (65 <=? n)%N && (n <=? 90)%N then Some (n - 65)%N
  else if (97 <=? n)%N && (n <=? 122)%N then Some (n - 97 + 26)%N
  else if (48 <=? n)%N && (n <=? 57)%N then Some (n - 48 + 52)%N
  else if (n =? 43)%N then Some 62%N
  else if (n =? 47)%N then Some 63%N
  else None.

Fixpoint decode (t : string) : option (list N) :=
  match t with
  | EmptyString => Some []
  | String a (String b (String c (String d r))) =>
      match char_sextet a, char_sextet b with
      | Some x, Some y =>
          match char_sextet c, char_sextet d, r with
          | Some z, Some w, _ =>
              match decode r with
              | Some bs =>
                  Some (x * 4 + y / 16 :: y mod 16 * 16 + z / 4
                          :: z mod 4 * 64 + w :: bs)
              | None => None
              end
          | Some z, None, EmptyString =>
              if Ascii.eqb d pad
              then Some [x * 4 + y / 16; y mod 16 * 16 + z / 4]
              else None
          | None, None, EmptyString =>
              if Ascii.eqb c pad && Ascii.eqb d pad
              then Some [x * 4 + y / 16]
              else None
          | _, _, _ => None
          end
      | _, _ => None
      end
  | _ => None
  end%N.

End Base64.

(** ** Configuration *)

Module Config.
Import JsString Base64.

(** The variables of [process.env] that server.js reads. *)
Record process_env : Type := {
  MPESA_CONSUMER_KEY : option string;
  MPESA_CONSUMER_SECRET : option string;
  MPESA_BUSINESS_SHORT_CODE : option string;
  MPESA_PASSKEY : option string;
  MPESA_CALLBACK_URL : option string;
  NODE_ENV : option string
}.

Record config : Type := {
  consumerKey : option string;
  consumerSecret : option string;
  businessShortCode : string;
  passkey : option string;
  callbackURL : option string;
  baseURL : string
}.

(** [MPESA_CONFIG] *)
Definition MPESA_CONFIG (env : process_env) : config := {|
  consumerKey := MPESA_CONSUMER_KEY env;
  consumerSecret := MPESA_CONSUMER_SECRET env;
  businessShortCode := or_else (MPESA_BUSINESS_SHORT_CODE env) "174379";
  passkey := MPESA_PASSKEY env;
  callbackURL := MPESA_CALLBACK_URL env;
  baseURL :=
    match NODE_ENV env with
    | Some "production" => "https://api.safaricom.co.ke"
    | _ => "https://sandbox.safaricom.co.ke"
    end
|}.

(** A value inside a template literal: [undefined] prints as its name. *)
Definition interpolate (v : option string) : string :=
  match v with
  | Some s => s
  | None => "undefined"
  end.

(** [generatePassword] *)
Definition generatePassword (cfg : config) (timestamp : string) : string :=
  to_base64 (businessShortCode cfg ++ interpolate (passkey cfg) ++ timestamp).

(** The Basic credential of [getAccessToken]. *)
Definition basic_auth (cfg : config) : string :=
  to_base64
    (interpolate (consumerKey cfg) ++ ":" ++ interpolate (consumerSecret cfg)).

(** Specification of the credential: the short code, the passkey and the
    timestamp, concatenated in that order and base64-encoded. *)
Definition derivePassword_spec (shortCode pk timestamp : string) : string :=
  encode (utf8 shortCode ++ utf8 pk ++ utf8 timestamp)%list.

(** A timestamp [YYYYMMDDHHmmss]. *)
Definition is_timestamp14 (t : string) : bool :=
  (String.length t =? 14)%nat && all_digits t.

End Config.

(** ** JSON values and property access *)

Module Json.

Inductive json : Type :=
| JNull
| JBool (b : bool)
| JNum (q : Q)
| JStr (s : string)
| JArr (items : list json)
| JObj (fields : list (string * json)).

(** A JavaScript value read out of a parsed JSON document; [None] is
    [undefined]. *)
Definition jsval : Type := option json.

Inductive js_error : Type :=
| TypeError
| Error (message : string)
| AxiosError (errorMessage : option string).

Inductive result (A : Type) : Type :=
| Ok (a : A)
| Throw (e : js_error).
Arguments Ok {A} a.
Arguments Throw {A} e.

(** [a === b].  Arrays and objects are compared by identity, and two values
    taken from two parsed documents are never the same object. *)
Definition strict_eq (a b : jsval) : bool :=
  match a, b with
  | None, None => true
  | Some JNull, Some JNull => true
  | Some (JBool x), Some (JBool y) => Bool.eqb x y
  | Some (JNum x), Some (JNum y) => Qeq_bool x y
  | Some (JStr x), Some (JStr y) => String.eqb x y
  | _, _ => false
  end.

(** The own property [k] of a parsed object: of two members with the same
    name, [JSON.parse] keeps the later. *)
Fixpoint own_property (k : string) (fs : list (string * json)) : jsval :=
  match fs with
  | [] => None
  | (k', v) :: r =>
      match own_property k r with
      | Some w => Some w
      | None => if String.eqb k' k then Some v else None
      end
  end.

(** [v.k], for the property names the handlers read ([Body],
    [stkCallback], [CheckoutRequestID], [ResultCode], ...): none of them is
    a property of a string, a number, a boolean or an array. *)
Definition get_prop (v : jsval) (k : string) : result jsval :=
  match v with
  | None | Some JNull => Throw TypeError
  | Some (JObj fs) => Ok (own_property k fs)
  | Some _ => Ok None
  end.

(** [v?.k] *)
Definition get_prop_opt (v : jsval) (k : string) : result jsval :=
  match v with
  | None | Some JNull => Ok None
  | _ => get_prop v k
  end.

(** [items.find(pred)] over an array, with a callback that may throw. *)
Fixpoint array_find (pred : json -> result bool) (items : list json)
  : result jsval :=
  match items with
  | [] => Ok None
  | x :: r =>
      match pred x with
      | Throw e => Throw e
      | Ok true => Ok (Some x)
      | Ok false => array_find pred r
      end
  end.

(** [v?.find(pred)]: only an array has a [find] method; on any other value
    that is neither [null] nor [undefined] the call is a [TypeError]. *)
Definition find_opt (v : jsval) (pred : json -> result bool) : result jsval :=
  match v with
  | None | Some JNull => Ok None
  | Some (JArr items) => array_find pred items
  | Some _ => Throw TypeError
  end.

End Json.

(** ** The server *)

Module Server.
Import JsString JsNumber Phone Base64 Config Json.

Inductive tx_status : Type := PENDING | SUCCESS | FAILED.

Record transaction : Type := {
  transactionId : string;
  checkoutRequestId : jsval;
  merchantRequestId : jsval;
  amount : jsnum;
  phoneNumber : string;
  accountReference : option string;
  status : tx_status;
  timestamp : Z;
  mpesaResponse : jsval;
  mpesaReceiptNumber : jsval;
  failureReason : jsval;
  callbackReceived : option Z;
  callbackData : jsval
}.

Definition set_status (s : tx_status) (t : transaction) : transaction := {|
  transactionId := transactionId t;
  checkoutRequestId := checkoutRequestId t;
  merchantRequestId := merchantRequestId t;
  amount := amount t;
  phoneNumber := phoneNumber t;
  accountReference := accountReference t;
  status := s;
  timestamp := timestamp t;
  mpesaResponse := mpesaResponse t;
  mpesaReceiptNumber := mpesaReceiptNumber t;
  failureReason := failureReason t;
  callbackReceived := callbackReceived t;
  callbackData := callbackData t
|}.

Definition set_mpesaReceiptNumber (v : jsval) (t : transaction)
  : transaction := {|
  transactionId := transactionId t;
  checkoutRequestId := checkoutRequestId t;
  merchantRequestId := merchantRequestId t;
  amount := amount t;
  phoneNumber := phoneNumber t;
  accountReference := accountReference t;
  status := status t;
  timestamp := timestamp t;
  mpesaResponse := mpesaResponse t;
  mpesaReceiptNumber := v;
  failureReason := failureReason t;
  callbackReceived := callbackReceived t;
  callbackData := callbackData t
|}.

Definition set_failureReason (v : jsval) (t : transaction) : transaction := {|
  transactionId := transactionId t;
  checkoutRequestId := checkoutRequestId t;
  merchantRequestId := merchantRequestId t;
  amount := amount t;
  phoneNumber := phoneNumber t;
  accountReference := accountReference t;
  status := status t;
  timestamp := timestamp t;
  mpesaResponse := mpesaResponse t;
  mpesaReceiptNumber := mpesaReceiptNumber t;
  failureReason := v;
  callbackReceived := callbackReceived t;
  callbackData := callbackData t
|}.

Definition set_callback (now : Z) (data : jsval) (t : transaction)
  : transaction := {|
  transactionId := transactionId t;
  checkoutRequestId := checkoutRequestId t;
  merchantRequestId := merchantRequestId t;
  amount := amount t;
  phoneNumber := phoneNumber t;
  accountReference := accountReference t;
  status := status t;
  timestamp := timestamp t;
  mpesaResponse := mpesaResponse t;
  mpesaReceiptNumber := mpesaReceiptNumber t;
  failureReason := failureReason t;
  callbackReceived := Some now;
  callbackData := data
|}.

(** *** The transaction store: a [Map] in insertion order *)

Definition store : Type := list (string * transaction).

Fixpoint Map_get (k : string) (m : store) : option transaction :=
  match m with
  | [] => None
  | (k', t) :: r => if String.eqb k' k then Some t else Map_get k r
  end.

(** [m.set(k, t)]: a known key keeps its place, a new one goes last. *)
Fixpoint Map_set (k : string) (t : transaction) (m : store) : store :=
  match m with
  | [] => [(k, t)]
  | (k', t') :: r =>
      if String.eqb k' k then (k', t) :: r else (k', t') :: Map_set k t r
  end.

Definition Map_values (m : store) : list transaction := map snd m.

(** [Array.from(m.values()).find(pred)], as the position of the record
    found: the record is an object of the store, and what the caller writes
    to it is written there. *)
Fixpoint find_from (pred : transaction -> result bool) (i : nat)
  (ts : list transaction) : result (option nat) :=
  match ts with
  | [] => Ok None
  | t :: r =>
      match pred t with
      | Throw e => Throw e
      | Ok true => Ok (Some i)
      | Ok false => find_from pred (S i) r
      end
  end.

Definition find_transaction (pred : transaction -> result bool) (m : store)
  : result (option nat) :=
  find_from pred 0 (Map_values m).

(** Write through the reference to the record at position [i]. *)
Fixpoint update_at (i : nat) (f : transaction -> transaction) (m : store)
  : store :=
  match m, i with
  | [], _ => []
  | (k, t) :: r, O => (k, f t) :: r
  | kt :: r, S j => kt :: update_at j f r
  end.

(** *** Outbound calls *)

Record stkPushData : Type := {
  BusinessShortCode : string;
  Password : string;
  Timestamp : string;
  TransactionType : string;
  Amount : jsnum;
  PartyA : string;
  PartyB : string;
  PhoneNumber : string;
  CallBackURL : option string;
  AccountReference : option string;
  TransactionDesc : string
}.

Inductive outbound : Type :=
| OAuthGet (url : string) (authorization : string)
| StkPushPost (url : string) (bearer : jsval) (payload : stkPushData).

(** What an [axios] call comes back with: the [data] of a 2xx response, or
    a rejection, with [error.response?.data?.errorMessage] when the gateway
    answered with one. *)
Inductive axios_reply : Type :=
| Resolved (data : jsval)
| Rejected (errorMessage : option string).

(** *** The state of the process and its monad *)

Record world : Type := {
  transactions : store;
  calls : list outbound
}.

Definition M (A : Type) : Type := world -> result A * world.

Definition ret {A} (a : A) : M A := fun w => (Ok a, w).

Definition throw {A} (e : js_error) : M A := fun w => (Throw e, w).

Definition bind {A B} (m : M A) (k : A -> M B) : M B :=
  fun w =>
    match m w with
    | (Ok a, w') => k a w'
    | (Throw e, w') => (Throw e, w')
    end.

Definition try_catch {A} (m : M A) (h : js_error -> M A) : M A :=
  fun w =>
    match m w with
    | (Ok a, w') => (Ok a, w')
    | (Throw e, w') => h e w'
    end.

Definition lift {A} (r : result A) : M A := fun w => (r, w).

Definition get_store : M store := fun w => (Ok (transactions w), w).

Definition modify_store (f : store -> store) : M unit :=
  fun w => (Ok tt, {| transactions := f (transactions w); calls := calls w |}).

Definition send (c : outbound) : M unit :=
  fun w =>
    (Ok tt, {| transactions := transactions w;
               calls := (calls w ++ [c])%list |}).

Definition await (r : axios_reply) : M jsval :=
  match r with
  | Resolved data => ret data
  | Rejected m => throw (AxiosError m)
  end.

Notation "x <- m ;; k" := (bind m (fun x => k))
  (at level 61, m at next level, right associativity).
Notation "m ;;; k" := (bind m (fun _ => k))
  (at level 61, right associativity).

(** *** Requests and responses *)

(** The body of [POST /api/mpesa/initiate]: four string fields, each of
    which the client may leave out. *)
Record initiate_request : Type := {
  req_amount : option string;
  req_phoneNumber : option string;
  req_accountReference : option string;
  req_transactionDesc : option string
}.

Inductive response_body : Type :=
| InitiateFailure (ResponseCode : string) (errorMessage : string)
| InitiateAccepted (ResponseCode ResponseDescription : jsval)
    (transactionId : string) (CheckoutRequestID : jsval)
| CallbackAck (ResultCode : Z) (ResultDesc : string)
| StatusNotFound (error : string)
| StatusFound (transactionId : string) (status : tx_status) (amount : jsnum)
    (phoneNumber : string) (timestamp : Z) (mpesaReceiptNumber : jsval)
| TransactionList (items : list response_body)
| Health (status : string) (timestamp : string).

Record response : Type := {
  http_status : nat;
  body : response_body
}.

(** [res.json(b)] and [res.status(c).json(b)] *)
Definition res_json (b : response_body) : response :=
  {| http_status := 200; body := b |}.

Definition res_status_json (c : nat) (b : response_body) : response :=
  {| http_status := c; body := b |}.

(** What the clock, the random generator and the gateway give to one run of
    the initiation handler. *)
Record initiate_env : Type := {
  date_now : string;        (* [Date.now()], printed *)
  random_suffix : string;   (* [Math.random().toString(36).substr(2, 9)] *)
  iso_now : string;         (* [new Date().toISOString()] *)
  token_reply : axios_reply;
  push_reply : axios_reply;
  stored_at : Z             (* [new Date()] of the record *)
}.

(** *** Utility functions *)

Definition generateTransactionId (now rnd : string) : string :=
  "TXN_" ++ now ++ "_" ++ rnd.

(** [s.replace(/[-:.TZ]/g, '')] *)
Fixpoint strip_iso_marks (s : string) : string :=
  match s with
  | EmptyString => EmptyString
  | String c r =>
      if Ascii.eqb c "-" || Ascii.eqb c ":" || Ascii.eqb c "."
         || Ascii.eqb c "T" || Ascii.eqb c "Z"
      then strip_iso_marks r
      else String c (strip_iso_marks r)
  end.

Definition timestamp_of (iso : string) : string :=
  slice_to 14 (strip_iso_marks iso).

(** The request of [getAccessToken]. *)
Definition oauth_call (cfg : config) : outbound :=
  let auth := basic_auth cfg in
  OAuthGet (baseURL cfg ++ "/oauth/v1/generate?grant_type=client_credentials")
    ("Basic " ++ auth).

(** [getAccessToken] *)
Definition getAccessToken (cfg : config) (reply : axios_reply) : M jsval :=
  try_catch
    (send (oauth_call cfg) ;;;
     data <- await reply ;;
     lift (get_prop data "access_token"))
    (fun _ => throw (Error "Failed to get access token")).

(** [validatePaymentRequest] *)
Definition validatePaymentRequest (data : initiate_request)
  : result (list string * string) :=
  let amount := req_amount data in
  let accountReference := req_accountReference data in
  let errors := [] in
  let errors :=
    if negb (truthy amount) || isNaN amount
       || lt_one (parseFloat_value amount)
    then (errors ++ ["Invalid amount"])%list else errors in
  match req_phoneNumber data with
  | None => Throw TypeError
  | Some phoneNumber =>
      let phone := formatPhoneNumber phoneNumber in
      let errors :=
        if negb (test_canonical phone)
        then (errors ++ ["Invalid phone number format"])%list else errors in
      let errors :=
        if negb (truthy accountReference)
           || match accountReference with
              | Some a => (String.length a <? 3)%nat
              | None => false
              end
        then (errors ++ ["Invalid account reference"])%list else errors in
      Ok (errors, phone)
  end.

(** [error.response?.data?.errorMessage] *)
Definition response_errorMessage (e : js_error) : option string :=
  match e with
  | AxiosError m => m
  | _ => None
  end.

(** The object [stkPushData] of the initiation handler. *)
Definition stkPushData_of (cfg : config) (password timestamp : string)
  (req : initiate_request) (formattedPhone : string) : stkPushData := {|
  BusinessShortCode := businessShortCode cfg;
  Password := password;
  Timestamp := timestamp;
  TransactionType := "CustomerPayBillOnline";
  Amount := Math_round (parseFloat_value (req_amount req));
  PartyA := formattedPhone;
  PartyB := businessShortCode cfg;
  PhoneNumber := formattedPhone;
  CallBackURL := callbackURL cfg;
  AccountReference := req_accountReference req;
  TransactionDesc := or_else (req_transactionDesc req) "Payment for services"
|}.

(** The push request of the initiation handler. *)
Definition push_call (cfg : config) (env : initiate_env)
  (req : initiate_request) (formattedPhone : string) (accessToken : jsval)
  : outbound :=
  let timestamp := timestamp_of (iso_now env) in
  let password := generatePassword cfg timestamp in
  StkPushPost (baseURL cfg ++ "/mpesa/stkpush/v1/processrequest") accessToken
    (stkPushData_of cfg password timestamp req formattedPhone).

(** The calls that a handler adds to the log. *)
Definition calls_made {A : Type} (m : M A) (w : world) : list outbound :=
  skipn (List.length (calls w)) (calls (snd (m w))).

(** *** Routes *)

(** [app.post('/api/mpesa/initiate')] *)
Definition post_initiate (cfg : config) (env : initiate_env)
  (req : initiate_request) : M response :=
  try_catch
    (v <- lift (validatePaymentRequest req) ;;
     let '(errors, formattedPhone) := v in
     if (0 <? List.length errors)%nat then
       ret (res_status_json 400
              (InitiateFailure "1" (join ", " errors)))
     else
       let transactionId :=
         generateTransactionId (date_now env) (random_suffix env) in
       let timestamp := timestamp_of (iso_now env) in
       accessToken <- getAccessToken cfg (token_reply env) ;;
       let password := generatePassword cfg timestamp in
       let stkPushData :=
         stkPushData_of cfg password timestamp req formattedPhone in
       send (StkPushPost
               (baseURL cfg ++ "/mpesa/stkpush/v1/processrequest")
               accessToken stkPushData) ;;;
       mpesaResponse <- await (push_reply env) ;;
       cid <- lift (get_prop mpesaResponse "CheckoutRequestID") ;;
       mid <- lift (get_prop mpesaResponse "MerchantRequestID") ;;
       let transaction := {|
         transactionId := transactionId;
         checkoutRequestId := cid;
         merchantRequestId := mid;
         amount := parseFloat_value (req_amount req);
         phoneNumber := formattedPhone;
         accountReference := req_accountReference req;
         status := PENDING;
         timestamp := stored_at env;
         mpesaResponse := mpesaResponse;
         mpesaReceiptNumber := None;
         failureReason := None;
         callbackReceived := None;
         callbackData := None
       |} in
       modify_store (Map_set transactionId transaction) ;;;
       rc <- lift (get_prop mpesaResponse "ResponseCode") ;;
       rd <- lift (get_prop mpesaResponse "ResponseDescription") ;;
       ret (res_json (InitiateAccepted rc rd transactionId cid)))
    (fun error =>
       ret (res_status_json 500
              (InitiateFailure "1"
                 (or_else (response_errorMessage error)
                    "Payment initiation failed")))).

Definition ack : response := res_json (CallbackAck 0 "Success").

(** [stkCallback.CallbackMetadata?.Item?.find(item => item.Name ===
    'MpesaReceiptNumber')?.Value] *)
Definition receipt_of (stkCallback : jsval) : result jsval :=
  match get_prop stkCallback "CallbackMetadata" with
  | Throw e => Throw e
  | Ok meta =>
      match meta with
      | None | Some JNull => Ok None
      | _ =>
          match get_prop meta "Item" with
          | Throw e => Throw e
          | Ok item =>
              match
                find_opt item
                  (fun it =>
                     match get_prop (Some it) "Name" with
                     | Throw e => Throw e
                     | Ok n => Ok (strict_eq n (Some (JStr "MpesaReceiptNumber")))
                     end)
              with
              | Throw e => Throw e
              | Ok found => get_prop_opt found "Value"
              end
          end
      end
  end.

(** [t => t.checkoutRequestId === stkCallback.CheckoutRequestID] *)
Definition same_checkout (stkCallback : jsval) (t : transaction)
  : result bool :=
  match get_prop stkCallback "CheckoutRequestID" with
  | Throw e => Throw e
  | Ok cid => Ok (strict_eq (checkoutRequestId t) cid)
  end.

(** The first statements of the [try] block: the callback taken out of its
    envelope, and the record it is for, if any. *)
Definition find_by_callback (req_body : jsval) (m : store)
  : result (jsval * option nat) :=
  match get_prop req_body "Body" with
  | Throw e => Throw e
  | Ok Body =>
      match get_prop Body "stkCallback" with
      | Throw e => Throw e
      | Ok stkCallback =>
          match find_transaction (same_checkout stkCallback) m with
          | Throw e => Throw e
          | Ok found => Ok (stkCallback, found)
          end
      end
  end.

(** The [try] block of [app.post('/api/mpesa/callback')]. *)
Definition callback_body (now : Z) (req_body : jsval) : M response :=
  m <- get_store ;;
  looked_up <- lift (find_by_callback req_body m) ;;
  let '(stkCallback, found) := looked_up in
  match found with
  | Some i =>
      rc <- lift (get_prop stkCallback "ResultCode") ;;
      (if strict_eq rc (Some (JNum 0)) then
         modify_store (update_at i (set_status SUCCESS)) ;;;
         receipt <- lift (receipt_of stkCallback) ;;
         modify_store (update_at i (set_mpesaReceiptNumber receipt))
       else
         modify_store (update_at i (set_status FAILED)) ;;;
         desc <- lift (get_prop stkCallback "ResultDesc") ;;
         modify_store (update_at i (set_failureReason desc))) ;;;
      modify_store (update_at i (set_callback now stkCallback)) ;;;
      ret ack
  | None => ret ack
  end.

(** [app.post('/api/mpesa/callback')] *)
Definition post_callback (now : Z) (req_body : jsval) : M response :=
  try_catch (callback_body now req_body) (fun _ => ret ack).

Definition public_fields (id : string) (t : transaction) : response_body :=
  StatusFound id (status t) (amount t) (phoneNumber t) (timestamp t)
    (mpesaReceiptNumber t).

(** [app.get('/api/mpesa/status/:transactionId')] *)
Definition get_status (id : string) : M response :=
  m <- get_store ;;
  match Map_get id m with
  | None => ret (res_status_json 404 (StatusNotFound "Transaction not found"))
  | Some t => ret (res_json (public_fields id t))
  end.

(** [app.get('/api/mpesa/transactions')] *)
Definition get_transactions : M response :=
  m <- get_store ;;
  ret (res_json
         (TransactionList
            (map (fun t => public_fields (transactionId t) t)
               (Map_values m)))).

(** [app.get('/api/health')] *)
Definition get_health (iso : string) : M response :=
  ret (res_json (Health "OK" iso)).

(** One request to the server. *)
Inductive api_call : Type :=
| PostInitiate (cfg : config) (env : initiate_env) (req : initiate_request)
| PostCallback (now : Z) (req_body : jsval)
| GetStatus (id : string)
| GetTransactions
| GetHealth (iso : string).

Definition handle (c : api_call) : M response :=
  match c with
  | PostInitiate cfg env req => post_initiate cfg env req
  | PostCallback now b => post_callback now b
  | GetStatus id => get_status id
  | GetTransactions => get_transactions
  | GetHealth iso => get_health iso
  end.

(** The worlds that the server can be in: it starts with an empty store
    and serves one request after the other. *)
Inductive reachable : world -> Prop :=
| reachable_start : reachable {| transactions := []; calls := [] |}
| reachable_next c w : reachable w -> reachable (snd (handle c w)).

(** Every record sits under its own id. *)
Definition well_keyed (m : store) : Prop :=
  Forall (fun kt => transactionId (snd kt) = fst kt) m.

End Server.

(** ** The payment wizard *)

Module Wizard.
Import JsString JsNumber Phone.

Inductive FormStep : Type :=
| step_amount
| step_phone
| step_pin
| step_processing
| step_success
| step_error.

Record FormData : Type := {
  amount : string;
  phoneNumber : string;
  pin : string
}.

(** [interface ApiResponse]; a field the server left out is [None]. *)
Record ApiResponse : Type := {
  ResponseCode : option string;
  errorMessage : option string
}.

(** The state of the component: its four [useState] cells. *)
Record wizard : Type := {
  step : FormStep;
  formData : FormData;
  loading : bool;
  error : string
}.

Definition initial : wizard := {|
  step := step_amount;
  formData := {| amount := EmptyString; phoneNumber := EmptyString; pin := EmptyString |};
  loading := false;
  error := EmptyString
|}.

Definition setStep (s : FormStep) (w : wizard) : wizard :=
  {| step := s; formData := formData w; loading := loading w;
     error := error w |}.

Definition setError (e : string) (w : wizard) : wizard :=
  {| step := step w; formData := formData w; loading := loading w;
     error := e |}.

Definition setLoading (b : bool) (w : wizard) : wizard :=
  {| step := step w; formData := formData w; loading := b;
     error := error w |}.

Definition setFormData (f : FormData -> FormData) (w : wizard) : wizard :=
  {| step := step w; formData := f (formData w); loading := loading w;
     error := error w |}.

(** The request that [fetch] sends: the object given to [JSON.stringify],
    member by member. *)
Record http_request : Type := {
  url : string;
  method : string;
  headers : list (string * string);
  request_body : list (string * string)
}.

(** How the [fetch] and the [response.json()] after it end: the promise is
    rejected, or there is a status and a body; the body is an [ApiResponse],
    or it is none ([None]): it is no JSON, or it is [null], and reading a
    field of it throws. *)
Inductive fetch_outcome : Type :=
| FetchRejected
| FetchResponse (status : nat) (data : option ApiResponse).

(** [response.ok] *)
Definition response_ok (status : nat) : bool :=
  (200 <=? status)%nat && (status <=? 299)%nat.

Definition handleAmountSubmit (w : wizard) : wizard :=
  if negb (truthy (Some (amount (formData w))))
     || lt_one (parseFloat (amount (formData w)))
  then setError "Please enter a valid amount" w
  else setStep step_phone (setError EmptyString w).

Definition handlePhoneSubmit (w : wizard) : wizard :=
  if negb (test_canonical (phoneNumber (formData w)))
  then setError "Please enter a valid phone number (254XXXXXXXXX)" w
  else setStep step_pin (setError EmptyString w).

(** The request of [initiatePayment]; [now] is [Date.now()], printed. *)
Definition initiate_request (now : string) (fd : FormData) : http_request := {|
  url := "/api/mpesa/initiate";
  method := "POST";
  headers := [("Content-Type", "application/json")];
  request_body :=
    [("amount", amount fd);
     ("phoneNumber", phoneNumber fd);
     ("accountReference", "ORDER_" ++ now);
     ("transactionDesc", "Payment for services")]
|}.

(** [initiatePayment], up to the [await]: the state while the call is in
    flight, and the request sent. *)
Definition initiatePayment_start (now : string) (w : wizard)
  : wizard * http_request :=
  (setStep step_processing (setLoading true w),
   initiate_request now (formData w)).

(** [initiatePayment], from the [await] on. *)
Definition initiatePayment_resolve (o : fetch_outcome) (w : wizard) : wizard :=
  let w' :=
    match o with
    | FetchResponse status (Some data) =>
        if response_ok status
           && match ResponseCode data with
              | Some c => String.eqb c "0"
              | None => false
              end
        then setStep step_success w
        else
          setStep step_error
            (setError
               (or_else (errorMessage data)
                  "Payment failed. Please try again.") w)
    | _ =>
        setStep step_error
          (setError
             "Network error. Please check your connection and try again." w)
    end in
  setLoading false w'.

Definition handlePinSubmit (now : string) (w : wizard)
  : wizard * list http_request :=
  if negb (String.length (pin (formData w)) =? 4)%nat
  then (setError "PIN must be 4 digits" w, [])
  else
    let (w', r) := initiatePayment_start now (setError EmptyString w) in (w', [r]).

Definition resetForm (w : wizard) : wizard :=
  setLoading false
    (setError EmptyString
       (setFormData (fun _ => {| amount := EmptyString; phoneNumber := EmptyString; pin := EmptyString |})
          (setStep step_amount w))).

Inductive field : Type := f_amount | f_phoneNumber | f_pin.

Definition handleInputChange (f : field) (value : string) (w : wizard)
  : wizard :=
  let w' :=
    setFormData
      (fun prev =>
         match f with
         | f_amount =>
             {| amount := value; phoneNumber := phoneNumber prev;
                pin := pin prev |}
         | f_phoneNumber =>
             {| amount := amount prev; phoneNumber := value;
                pin := pin prev |}
         | f_pin =>
             {| amount := amount prev; phoneNumber := phoneNumber prev;
                pin := value |}
         end) w in
  if truthy (Some (error w)) then setError EmptyString w' else w'.

(** What the user and the network can do to the component.  A control
    exists only in the step that renders it. *)
Inductive event : Type :=
| TypeAmount (value : string)
| SubmitAmount
| TypePhone (value : string)
| BackToAmount
| SubmitPhone
| TypePin (value : string)
| BackToPhone
| SubmitPin (now : string)
| TryAgain
| StartOver
| FetchDone (o : fetch_outcome).

Definition dispatch (e : event) (w : wizard) : wizard * list http_request :=
  match step w, e with
  | step_amount, TypeAmount v => (handleInputChange f_amount v w, [])
  | step_amount, SubmitAmount => (handleAmountSubmit w, [])
  | step_phone, TypePhone v => (handleInputChange f_phoneNumber v w, [])
  | step_phone, BackToAmount => (setStep step_amount w, [])
  | step_phone, SubmitPhone => (handlePhoneSubmit w, [])
  | step_pin, TypePin v =>
      (handleInputChange f_pin (strip_non_digits v) w, [])
  | step_pin, BackToPhone => (setStep step_phone w, [])
  | step_pin, SubmitPin now => handlePinSubmit now w
  | step_error, TryAgain => (setStep step_pin w, [])
  | step_error, StartOver => (resetForm w, [])
  | step_success, StartOver => (resetForm w, [])
  | step_processing, FetchDone o => (initiatePayment_resolve o w, [])
  | _, _ => (w, [])
  end.

(** A session: the events in order, and every request sent on the way. *)
Fixpoint run (es : list event) (w : wizard) : wizard * list http_request :=
  match es with
  | [] => (w, [])
  | e :: r =>
      let (w1, out1) := dispatch e w in
      let (w2, out2) := run r w1 in
      (w2, (out1 ++ out2)%list)
  end.





(** Two sessions of a customer who pays 500 from 254712345678, with two
    PINs. *)
Definition session (pin_typed : string) : list event :=
  [TypeAmount "500"; SubmitAmount;
   TypePhone "254712345678"; SubmitPhone;
   TypePin pin_typed; SubmitPin "1700000000000"].

Definition in_flight : wizard := {|
  step := step_processing;
  formData := {| amount := "500"; phoneNumber := "254712345678";
                 pin := "1234" |};
  loading := true;
  error := EmptyString
|}.

End Wizard.

(** ** Concrete inputs used below *)

Module Fixtures.
Import JsString JsNumber Phone Base64 Config Json Server.

Definition byte (n : N) : Prop := (n < 256)%N.

(** The sandbox settings of the gateway's documentation. *)
Definition sandbox_env : process_env := {|
  MPESA_CONSUMER_KEY := Some "key";
  MPESA_CONSUMER_SECRET := Some "secret";
  MPESA_BUSINESS_SHORT_CODE := None;
  MPESA_PASSKEY :=
    Some "bfb279f9aa9bdbcf158e97dd71a467cd2e0c893059b10f78e6b72ada1ed2c919";
  MPESA_CALLBACK_URL := Some "https://example.test/api/mpesa/callback";
  NODE_ENV := None
|}.

Definition sandbox : config := MPESA_CONFIG sandbox_env.

Definition generic_failure : response :=
  res_status_json 500 (InitiateFailure "1" "Payment initiation failed").

(** A request that leaves out the amount and the phone number. *)
Definition request_without_phone : initiate_request := {|
  req_amount := None;
  req_phoneNumber := None;
  req_accountReference := Some "ORDER_1";
  req_transactionDesc := None
|}.

(** A request that passes the validation. *)
Definition valid_request : initiate_request := {|
  req_amount := Some "100.5";
  req_phoneNumber := Some "0712345678";
  req_accountReference := Some "ORDER_1";
  req_transactionDesc := None
|}.

Definition accepted_push : json :=
  JObj [("MerchantRequestID", JStr "29115-34620561-1");
        ("CheckoutRequestID", JStr "ws_CO_1");
        ("ResponseCode", JStr "0");
        ("ResponseDescription", JStr "Success. Request accepted for processing");
        ("CustomerMessage", JStr "Success. Request accepted for processing")].

Definition token_response : json :=
  JObj [("access_token", JStr "c9SQxWWhmdVRlyh0zh8gZDTkubVF");
        ("expires_in", JStr "3599")].

Definition env_accepted : initiate_env := {|
  date_now := "1455641787000";
  random_suffix := "k3j9x0q2a";
  iso_now := "2016-02-16T16:56:27.000Z";
  token_reply := Resolved (Some token_response);
  push_reply := Resolved (Some accepted_push);
  stored_at := 1455641787500
|}.

(** The token exchange is refused, and the gateway says why. *)
Definition env_token_refused : initiate_env := {|
  date_now := "1455641787000";
  random_suffix := "k3j9x0q2a";
  iso_now := "2016-02-16T16:56:27.000Z";
  token_reply := Rejected (Some "Invalid Authentication passed");
  push_reply := Resolved (Some accepted_push);
  stored_at := 1455641787500
|}.

(** The push is refused, and the gateway says why. *)
Definition env_push_refused : initiate_env := {|
  date_now := "1455641787000";
  random_suffix := "k3j9x0q2a";
  iso_now := "2016-02-16T16:56:27.000Z";
  token_reply := Resolved (Some token_response);
  push_reply := Rejected (Some "Bad Request - Invalid PhoneNumber");
  stored_at := 1455641787500
|}.

Definition empty_world : world := {| transactions := []; calls := [] |}.

(** A record that a first callback has resolved to [SUCCESS]. *)
Definition paid : transaction := {|
  transactionId := "TXN_1455641787000_k3j9x0q2a";
  checkoutRequestId := Some (JStr "ws_CO_1");
  merchantRequestId := Some (JStr "29115-34620561-1");
  amount := Fin (201 # 2);
  phoneNumber := "254712345678";
  accountReference := Some "ORDER_1";
  status := SUCCESS;
  timestamp := 1455641787500;
  mpesaResponse := Some accepted_push;
  mpesaReceiptNumber := Some (JStr "NLJ7RT61SV");
  failureReason := None;
  callbackReceived := Some 1455641800000%Z;
  callbackData := None
|}.

Definition world_paid : world :=
  {| transactions := [("TXN_1455641787000_k3j9x0q2a", paid)]; calls := [] |}.

(** A later callback for the same push, with a result code other than 0. *)
Definition callback_cancelled : jsval :=
  Some (JObj
    [("Body", JObj
       [("stkCallback", JObj
          [("MerchantRequestID", JStr "29115-34620561-1");
           ("CheckoutRequestID", JStr "ws_CO_1");
           ("ResultCode", JNum 1032);
           ("ResultDesc", JStr "Request cancelled by user")])])]).

(** The callback of a payment that went through. *)
Definition callback_paid : jsval :=
Some (JObj
  [("Body", JObj
     [("stkCallback", JObj
        [("MerchantRequestID", JStr "29115-34620561-1");
         ("CheckoutRequestID", JStr "ws_CO_1");
         ("ResultCode", JNum 0);
         ("ResultDesc", JStr "The service request is processed successfully.");
         ("CallbackMetadata", JObj
            [("Item", JArr
               [JObj [("Name", JStr "Amount"); ("Value", JNum 101)];
                JObj [("Name", JStr "MpesaReceiptNumber");
                      ("Value", JStr "NLJ7RT61SV")];
                JObj [("Name", JStr "PhoneNumber");
                      ("Value", JNum 254712345678)]])])])])]).

(** A request whose amount is blank. *)
Definition blank_amount_request : initiate_request := {|
req_amount := Some "   ";
req_phoneNumber := Some "0712345678";
req_accountReference := Some "ORDER_1";
req_transactionDesc := None
|}.

End Fixtures.

(** ** Shapes of inputs and further concrete inputs *)

Module Scenarios.
Import JsString JsNumber Phone Base64 Config Json Server.

(** The text of [toISOString()] for a year of four digits:
    [YYYY-MM-DDTHH:mm:ss.sssZ], from its seven runs of digits. *)
Definition iso_of (Y M D h m s f : string) : string :=
  Y ++ "-" ++ M ++ "-" ++ D ++ "T" ++ h ++ ":" ++ m ++ ":" ++ s
    ++ "." ++ f ++ "Z".

(** The push is answered with [null]. *)
Definition env_push_empty : initiate_env := {|
  date_now := "1455641787000";
  random_suffix := "k3j9x0q2a";
  iso_now := "2016-02-16T16:56:27.000Z";
  token_reply := Resolved (Some Fixtures.token_response);
  push_reply := Resolved (Some JNull);
  stored_at := 1455641787500
|}.

(** What the callback handler writes into the record it has found, as its
    statements go: the status first; then the receipt number or the failure
    reason, unless reading it throws; then the time and the callback. *)
Definition resolved_by (now : Z) (stkCallback rc : jsval) (t : transaction)
  : transaction :=
  if strict_eq rc (Some (JNum 0)) then
    match receipt_of stkCallback with
    | Ok receipt =>
        set_callback now stkCallback
          (set_mpesaReceiptNumber receipt (set_status SUCCESS t))
    | Throw _ => set_status SUCCESS t
    end
  else
    match get_prop stkCallback "ResultDesc" with
    | Ok desc =>
        set_callback now stkCallback
          (set_failureReason desc (set_status FAILED t))
    | Throw _ => set_status FAILED t
    end.

(** The record that an accepted initiation of [req] puts under [id]. *)
Definition fresh_record (req : initiate_request) (phone id : string)
  (t : transaction) : Prop :=
  transactionId t = id /\ status t = PENDING
  /\ amount t = parseFloat_value (req_amount req)
  /\ phoneNumber t = phone
  /\ accountReference t = req_accountReference req
  /\ mpesaReceiptNumber t = None /\ failureReason t = None
  /\ callbackReceived t = None /\ callbackData t = None.

(** A PENDING record has seen no callback. *)
Definition untouched_while_pending (t : transaction) : Prop :=
  status t = PENDING ->
  mpesaReceiptNumber t = None /\ failureReason t = None
  /\ callbackReceived t = None /\ callbackData t = None.

(** A record holds what the validation has let through. *)
Definition validated (t : transaction) : Prop :=
  test_canonical (phoneNumber t) = true
  /\ lt_one (amount t) = false
  /\ exists ref, accountReference t = Some ref
                 /\ (3 <= String.length ref)%nat.

(** A callback whose [Item] is an object, not an array. *)
Definition callback_bad_metadata : jsval :=
  Some (JObj
    [("Body", JObj
       [("stkCallback", JObj
          [("CheckoutRequestID", JStr "ws_CO_1");
           ("ResultCode", JNum 0);
           ("ResultDesc", JStr "The service request is processed successfully.");
           ("CallbackMetadata", JObj
              [("Item", JObj [("Name", JStr "MpesaReceiptNumber");
                              ("Value", JStr "NLJ7RT61SV")])])])])]).

(** A record that waits for its callback. *)
Definition waiting : transaction := {|
  transactionId := "TXN_1455641787000_k3j9x0q2a";
  checkoutRequestId := Some (JStr "ws_CO_1");
  merchantRequestId := Some (JStr "29115-34620561-1");
  amount := Fin (201 # 2);
  phoneNumber := "254712345678";
  accountReference := Some "ORDER_1";
  status := PENDING;
  timestamp := 1455641787500;
  mpesaResponse := Some Fixtures.accepted_push;
  mpesaReceiptNumber := None;
  failureReason := None;
  callbackReceived := None;
  callbackData := None
|}.

Definition world_waiting : world :=
  {| transactions := [("TXN_1455641787000_k3j9x0q2a", waiting)];
     calls := [] |}.

(** The callback taken out of [Fixtures.callback_paid]. *)
Definition stk_paid : jsval :=
  Some (JObj
    [("MerchantRequestID", JStr "29115-34620561-1");
     ("CheckoutRequestID", JStr "ws_CO_1");
     ("ResultCode", JNum 0);
     ("ResultDesc", JStr "The service request is processed successfully.");
     ("CallbackMetadata", JObj
        [("Item", JArr
           [JObj [("Name", JStr "Amount"); ("Value", JNum 101)];
            JObj [("Name", JStr "MpesaReceiptNumber");
                  ("Value", JStr "NLJ7RT61SV")];
            JObj [("Name", JStr "PhoneNumber");
                  ("Value", JNum 254712345678)]])])]).

(** The callback taken out of [Fixtures.callback_cancelled]. *)
Definition stk_cancelled : jsval :=
  Some (JObj
    [("MerchantRequestID", JStr "29115-34620561-1");
     ("CheckoutRequestID", JStr "ws_CO_1");
     ("ResultCode", JNum 1032);
     ("ResultDesc", JStr "Request cancelled by user")]).

(** A callback for a push that this server has not made. *)
Definition callback_foreign : jsval :=
  Some (JObj
    [("Body", JObj
       [("stkCallback", JObj
          [("CheckoutRequestID", JStr "ws_CO_2");
           ("ResultCode", JNum 0)])])]).

End Scenarios.

(** ** The wizard and the server together *)

Module Client.
Import JsString JsNumber Phone Wizard.

(** The member [k] of the object that the wizard has sent, as
    [express.json()] hands it to the handler. *)
Fixpoint body_field (k : string) (b : list (string * string)) : option string :=
  match b with
  | [] => None
  | (k', v) :: r =>
      match body_field k r with
      | Some w => Some w
      | None => if String.eqb k' k then Some v else None
      end
  end.

(** The request of the wizard as the initiation handler reads it. *)
Definition server_request_of (r : http_request) : Server.initiate_request := {|
  Server.req_amount := body_field "amount" (request_body r);
  Server.req_phoneNumber := body_field "phoneNumber" (request_body r);
  Server.req_accountReference :=
    body_field "accountReference" (request_body r);
  Server.req_transactionDesc := body_field "transactionDesc" (request_body r)
|}.

(** The form has passed the checks of the steps that lie behind. *)
Definition checked (w : wizard) : Prop :=
  all_digits (pin (formData w)) = true
  /\ (step w <> step_amount ->
      amount (formData w) <> EmptyString
      /\ lt_one (parseFloat (amount (formData w))) = false)
  /\ (step w <> step_amount -> step w <> step_phone ->
      test_canonical (phoneNumber (formData w)) = true).

(** A request made from a form that has passed all three steps. *)
Definition from_checked_form (r : http_request) : Prop :=
  exists now fd,
    r = initiate_request now fd
    /\ amount fd <> EmptyString
    /\ lt_one (parseFloat (amount fd)) = false
    /\ test_canonical (phoneNumber fd) = true
    /\ String.length (pin fd) = 4%nat
    /\ all_digits (pin fd) = true.

Definition is_fetch_done (e : event) : bool :=
  match e with
  | FetchDone _ => true
  | _ => false
  end.

(** The answer that takes the wizard to success. *)
Definition accepted (e : event) : Prop :=
  exists status data,
    e = FetchDone (FetchResponse status (Some data))
    /\ response_ok status = true
    /\ ResponseCode data = Some "0".

Definition in_processing (w : wizard) : nat :=
  match step w with
  | step_processing => 1
  | _ => 0
  end.

(** A session that types an amount which [parseFloat] reads and [Number]
    does not. *)
Definition session_12abc : list event :=
  [TypeAmount "12abc"; SubmitAmount;
   TypePhone "254712345678"; SubmitPhone;
   TypePin "1234"; SubmitPin "1700000000000"].

(** A session that ends in success. *)
Definition session_paid : list event :=
  (session "1234"
   ++ [FetchDone
         (FetchResponse 200
            (Some {| ResponseCode := Some "0"; errorMessage := None |}))])%list.

End Client.

(** * Properties *)

(** ** Phone normalisation *)

Section PhoneNormalisation.
Import JsString Phone.

Lemma strip_non_digits_fixes_digits (s : string) :
  all_digits s = true -> strip_non_digits s = s.
Proof.
  induction s as [|c r IH]; simpl; intros H; [reflexivity|].
  apply andb_prop in H as [Hc Hr].
  rewrite Hc, (IH Hr); reflexivity.
Qed.

Lemma canonical_shape (s : string) :
  test_canonical s = true ->
  exists r, s = "254" ++ r /\ String.length r = 9%nat /\ all_digits r = true.
Proof.
  unfold test_canonical; intros H.
  destruct s as [|a s]; [discriminate|].
  destruct a as [[] [] [] [] [] [] [] []]; try discriminate.
  destruct s as [|b s]; [discriminate|].
  destruct b as [[] [] [] [] [] [] [] []]; try discriminate.
  destruct s as [|c r]; [discriminate|].
  destruct c as [[] [] [] [] [] [] [] []]; try discriminate.
  apply andb_prop in H as [Hl Hd].
  exists r; repeat split; [apply Nat.eqb_eq, Hl | exact Hd].
Qed.

Lemma formatPhoneNumber_canonical (s : string) :
  test_canonical s = true -> formatPhoneNumber s = s.
Proof.
  intros H.
  destruct (canonical_shape s H) as (r & -> & _ & Hd).
  unfold formatPhoneNumber.
  rewrite strip_non_digits_fixes_digits by (simpl; exact Hd).
  unfold startsWith; simpl.
  destruct r; reflexivity.
Qed.

(** C2. Normalising a number that is already canonical (254 and nine
    digits) returns it unchanged, and "0712345678", "712345678" and
    "254712345678" all normalise to "254712345678". *)
Theorem C2_formatPhoneNumber_idempotent :
  (forall s, test_canonical s = true -> formatPhoneNumber s = s)
  /\ formatPhoneNumber "0712345678" = "254712345678"
  /\ formatPhoneNumber "712345678" = "254712345678"
  /\ formatPhoneNumber "254712345678" = "254712345678".
Proof.
  split; [exact formatPhoneNumber_canonical|].
  repeat split; reflexivity.
Qed.

Lemma C2_witness :
  test_canonical "254700000001" = true
  /\ formatPhoneNumber "254700000001" = "254700000001".
Proof.
  split; [reflexivity|].
  apply (proj1 C2_formatPhoneNumber_idempotent); reflexivity.
Defined.

(** Whatever the input, normalising twice is normalising once when the
    first result is canonical. *)
Lemma formatPhoneNumber_twice (s : string) :
  test_canonical (formatPhoneNumber s) = true ->
  formatPhoneNumber (formatPhoneNumber s) = formatPhoneNumber s.
Proof. apply formatPhoneNumber_canonical. Qed.

End PhoneNormalisation.

(** ** The push credential *)

Section Credential.
Import JsString Base64 Config Fixtures.

Lemma list_ind3 (A : Type) (P : list A -> Prop) :
  P [] -> (forall a, P [a]) -> (forall a b, P [a; b]) ->
  (forall a b c r, P r -> P (a :: b :: c :: r)) ->
  forall l, P l.
Proof.
  intros H0 H1 H2 H3 l.
  enough (P l /\ (forall a, P (a :: l)) /\ (forall a b, P (a :: b :: l)))
    by tauto.
  induction l as [|x l (IH0 & IH1 & IH2)]; auto.
Qed.

Lemma sextet_roundtrip_table :
  forallb
    (fun k =>
       match char_sextet (sextet_char (N.of_nat k)) with
       | Some m => N.eqb m (N.of_nat k)
       | None => false
       end)
    (seq 0 64) = true.
Proof. vm_compute. reflexivity. Qed.

Lemma sextet_roundtrip (n : N) :
  (n < 64)%N -> char_sextet (sextet_char n) = Some n.
Proof.
  intros H.
  pose proof (proj1 (forallb_forall _ _) sextet_roundtrip_table (N.to_nat n))
    as T.
  assert (In (N.to_nat n) (seq 0 64)) as Hin by (apply in_seq; lia).
  specialize (T Hin). cbv beta in T.
  rewrite N2Nat.id in T.
  destruct (char_sextet (sextet_char n)); [|discriminate].
  apply N.eqb_eq in T; congruence.
Qed.

Lemma pad_is_no_sextet : char_sextet pad = None.
Proof. reflexivity. Qed.

Ltac sextet :=
  rewrite sextet_roundtrip
    by (unfold byte in *; zify; Z.to_euclidean_division_equations; lia).

Lemma decode_encode (bs : list N) :
  Forall byte bs -> decode (encode bs) = Some bs.
Proof.
  induction bs as [|a|a b|a b c r IH] using list_ind3; intros H.
  - reflexivity.
  - inversion_clear H as [|? ? Ha _].
    cbn [encode decode]. do 2 sextet. rewrite pad_is_no_sextet.
    cbn. f_equal. f_equal.
    unfold byte in *; zify; Z.to_euclidean_division_equations; lia.
  - inversion_clear H as [|? ? Ha H']. inversion_clear H' as [|? ? Hb _].
    cbn [encode decode]. do 3 sextet. rewrite pad_is_no_sextet.
    cbn. f_equal.
    f_equal; [|f_equal];
      unfold byte in *; zify; Z.to_euclidean_division_equations; lia.
  - inversion_clear H as [|? ? Ha H']. inversion_clear H' as [|? ? Hb H''].
    inversion_clear H'' as [|? ? Hc Hr].
    cbn [encode decode]. do 4 sextet. rewrite (IH Hr).
    f_equal.
    f_equal; [|f_equal; [|f_equal]];
      unfold byte in *; zify; Z.to_euclidean_division_equations; lia.
Qed.

Lemma utf8_app (a b : string) : utf8 (a ++ b) = (utf8 a ++ utf8 b)%list.
Proof.
  induction a as [|c r IH]; simpl; [reflexivity|].
  rewrite IH, app_assoc; reflexivity.
Qed.

Lemma utf8_bytes (s : string) : Forall byte (utf8 s).
Proof.
  induction s as [|c r IH]; simpl; [constructor|].
  apply Forall_app; split; [|exact IH].
  unfold utf8_unit, code.
  pose proof (N_ascii_bounded c) as Hc.
  destruct (N.ltb_spec (N_of_ascii c) 128); repeat constructor;
    unfold byte; zify; Z.to_euclidean_division_equations; lia.
Qed.

Lemma to_base64_reversible (s : string) : decode (to_base64 s) = Some (utf8 s).
Proof. apply decode_encode, utf8_bytes. Qed.

(** C8. With a passkey configured, the credential for a 14-digit timestamp
    is the base64 text of short code, passkey and timestamp concatenated in
    that order, and decodes back to exactly those bytes. *)
Theorem C8_generatePassword_base64 (cfg : config) (pk timestamp : string) :
  passkey cfg = Some pk ->
  is_timestamp14 timestamp = true ->
  generatePassword cfg timestamp
  = derivePassword_spec (businessShortCode cfg) pk timestamp
  /\ decode (generatePassword cfg timestamp)
     = Some (utf8 (businessShortCode cfg) ++ utf8 pk ++ utf8 timestamp)%list.
Proof.
  intros Hpk _.
  assert (generatePassword cfg timestamp
          = derivePassword_spec (businessShortCode cfg) pk timestamp) as E.
  { unfold generatePassword, derivePassword_spec, to_base64.
    rewrite Hpk; simpl interpolate.
    rewrite !utf8_app; reflexivity. }
  split; [exact E|].
  unfold generatePassword. rewrite to_base64_reversible, Hpk.
  simpl interpolate. rewrite !utf8_app; reflexivity.
Qed.

Lemma C8_witness :
  passkey (MPESA_CONFIG sandbox_env)
  = Some "bfb279f9aa9bdbcf158e97dd71a467cd2e0c893059b10f78e6b72ada1ed2c919"
  /\ is_timestamp14 "20160216165627" = true
  /\ generatePassword (MPESA_CONFIG sandbox_env) "20160216165627"
  = derivePassword_spec "174379"
      "bfb279f9aa9bdbcf158e97dd71a467cd2e0c893059b10f78e6b72ada1ed2c919"
      "20160216165627"
  /\ decode (generatePassword (MPESA_CONFIG sandbox_env) "20160216165627")
     = Some (utf8 "174379"
             ++ utf8 "bfb279f9aa9bdbcf158e97dd71a467cd2e0c893059b10f78e6b72ada1ed2c919"
             ++ utf8 "20160216165627")%list.
Proof.
  split; [reflexivity|]. split; [reflexivity|].
  apply (C8_generatePassword_base64 (MPESA_CONFIG sandbox_env)
           "bfb279f9aa9bdbcf158e97dd71a467cd2e0c893059b10f78e6b72ada1ed2c919"
           "20160216165627"); reflexivity.
Defined.

(** The sandbox credential of the gateway's documentation. *)
Example generatePassword_sandbox :
  generatePassword (MPESA_CONFIG sandbox_env) "20160216165627"
  = "MTc0Mzc5YmZiMjc5ZjlhYTliZGJjZjE1OGU5N2RkNzFhNDY3Y2QyZTBjODkzMDU5YjEwZjc4ZTZiNzJhZGExZWQyYzkxOTIwMTYwMjE2MTY1NjI3".
Proof. vm_compute. reflexivity. Qed.

(** Without a passkey in the environment the template literal prints the
    word "undefined" in its place. *)
Remark generatePassword_without_passkey (cfg : config) (timestamp : string) :
  passkey cfg = None ->
  generatePassword cfg timestamp
  = to_base64 (businessShortCode cfg ++ "undefined" ++ timestamp).
Proof. intros H; unfold generatePassword; rewrite H; reflexivity. Qed.

(** The timestamp the handler takes from the clock has the 14 digits. *)
Example timestamp_of_iso :
  Server.timestamp_of "2016-02-16T16:56:27.123Z" = "20160216165627"
  /\ is_timestamp14 (Server.timestamp_of "2016-02-16T16:56:27.123Z") = true.
Proof. split; reflexivity. Qed.

End Credential.

(** ** The initiation handler *)

Section Initiation.
Import JsString JsNumber Phone Base64 Config Json Server Fixtures.

(** Without a phone number in the request the validation throws, and the
    handler answers 500 with the generic message, whatever else the request
    holds. *)
Lemma missing_phone_answers_500 (cfg : config) (env : initiate_env)
  (req : initiate_request) (w : world) :
  req_phoneNumber req = None ->
  validatePaymentRequest req = Throw TypeError
  /\ post_initiate cfg env req w = (Ok generic_failure, w).
Proof.
  intros H.
  assert (validatePaymentRequest req = Throw TypeError) as V
    by (unfold validatePaymentRequest; rewrite H; reflexivity).
  split; [exact V|].
  unfold post_initiate, try_catch, bind, lift. rewrite V. reflexivity.
Qed.

(** C3, at a request without amount and phone number: the validation does
    not come back with its list of errors, the handler answers 500 with the
    generic message instead of 400 with the list; nothing is sent and
    nothing is stored. *)
Theorem C3_missing_phone_answers_500 (cfg : config) (env : initiate_env)
  (w : world) :
  validatePaymentRequest request_without_phone = Throw TypeError
  /\ post_initiate cfg env request_without_phone w = (Ok generic_failure, w).
Proof. split; reflexivity. Qed.

(** Whenever the validation does come back with errors, the answer is 400
    with all of them, and the world is as it was: no call, no record. *)
Lemma validation_errors_answer_400 (cfg : config) (env : initiate_env)
  (req : initiate_request) (w : world) (e : string) (errors : list string)
  (phone : string) :
  validatePaymentRequest req = Ok (e :: errors, phone) ->
  post_initiate cfg env req w
  = (Ok (res_status_json 400
           (InitiateFailure "1" (join ", " (e :: errors)))), w).
Proof.
  intros H. unfold post_initiate, try_catch, bind, lift.
  rewrite H. reflexivity.
Qed.

(** With a phone number in the request the validation always comes back. *)
Lemma validation_returns (req : initiate_request) (p : string) :
  req_phoneNumber req = Some p ->
  exists errors,
    validatePaymentRequest req = Ok (errors, formatPhoneNumber p).
Proof.
  intros H. unfold validatePaymentRequest. rewrite H.
  eexists; reflexivity.
Qed.

(** The three checks, one by one. *)
Lemma validation_checks (req : initiate_request) (p : string) :
  req_phoneNumber req = Some p ->
  validatePaymentRequest req
  = Ok ((if negb (truthy (req_amount req)) || isNaN (req_amount req)
            || lt_one (parseFloat_value (req_amount req))
         then ["Invalid amount"] else [])
        ++ (if negb (test_canonical (formatPhoneNumber p))
            then ["Invalid phone number format"] else [])
        ++ (if negb (truthy (req_accountReference req))
               || match req_accountReference req with
                  | Some a => (String.length a <? 3)%nat
                  | None => false
                  end
            then ["Invalid account reference"] else []),
        formatPhoneNumber p)%list.
Proof.
  intros H. unfold validatePaymentRequest. rewrite H.
  destruct (negb (truthy (req_amount req)) || isNaN (req_amount req)
            || lt_one (parseFloat_value (req_amount req)));
    destruct (negb (test_canonical (formatPhoneNumber p)));
    destruct (negb (truthy (req_accountReference req))
              || match req_accountReference req with
                 | Some a => (String.length a <? 3)%nat
                 | None => false
                 end); reflexivity.
Qed.

Lemma validation_passed (req : initiate_request) (phone : string) :
  validatePaymentRequest req = Ok ([], phone) ->
  exists a raw ref,
    req_amount req = Some a /\ req_phoneNumber req = Some raw
    /\ req_accountReference req = Some ref
    /\ a <> EmptyString /\ isNaN (Some a) = false /\ lt_one (parseFloat a) = false
    /\ phone = formatPhoneNumber raw /\ test_canonical phone = true
    /\ (3 <= String.length ref)%nat.
Proof.
  intros H.
  destruct (req_phoneNumber req) as [raw|] eqn:Hp;
    [|unfold validatePaymentRequest in H; rewrite Hp in H; discriminate].
  rewrite (validation_checks req raw Hp) in H.
  injection H as He Hphone.
  apply app_eq_nil in He as [H1 He]. apply app_eq_nil in He as [H2 H3].
  destruct (req_amount req) as [[|c a]|]; try discriminate.
  destruct (req_accountReference req) as [[|c' ref]|]; try discriminate.
  exists (String c a), raw, (String c' ref).
  simpl truthy in *. simpl negb in *. rewrite orb_false_l in *.
  simpl parseFloat_value in *.
  destruct (isNaN (Some (String c a))); [discriminate|].
  destruct (lt_one (parseFloat (String c a))); [discriminate|].
  rewrite Hphone in H2.
  destruct (test_canonical phone); [|discriminate].
  destruct (Nat.ltb_spec (String.length (String c' ref)) 3); [discriminate|].
  repeat split; try reflexivity; try congruence; try assumption.
Qed.

(** The calls of an initiation that has passed the validation: the token
    exchange, and the push when the exchange has given a token. *)
Lemma post_initiate_calls (cfg : config) (env : initiate_env)
  (req : initiate_request) (w : world) (phone : string) :
  validatePaymentRequest req = Ok ([], phone) ->
  calls (snd (post_initiate cfg env req w))
  = (calls w ++ oauth_call cfg
       :: match token_reply env with
          | Resolved data =>
              match get_prop data "access_token" with
              | Ok token => [push_call cfg env req phone token]
              | Throw _ => []
              end
          | Rejected _ => []
          end)%list.
Proof.
  intros H.
  unfold post_initiate, try_catch, bind, lift, getAccessToken, try_catch,
    bind, send, await, modify_store, ret, throw, lift.
  rewrite H; simpl.
  destruct (token_reply env) as [data|m]; simpl; [|reflexivity].
  destruct (get_prop data "access_token") as [token|]; simpl; [|reflexivity].
  rewrite <- app_assoc; simpl.
  destruct (push_reply env) as [resp|m]; simpl; [|reflexivity].
  destruct (get_prop resp "CheckoutRequestID"); simpl; [|reflexivity].
  destruct (get_prop resp "MerchantRequestID"); simpl; [|reflexivity].
  destruct (get_prop resp "ResponseCode"); simpl; [|reflexivity].
  destruct (get_prop resp "ResponseDescription"); simpl; reflexivity.
Qed.

Lemma skipn_own_length (A : Type) (l r : list A) :
  skipn (List.length l) (l ++ r) = r.
Proof. induction l; simpl; auto. Qed.




(** The amount of the example is rounded up. *)
Example push_amount_rounded :
  Amount (stkPushData_of sandbox "password" "20160216165627" valid_request
            "254712345678")
  = Fin (inject_Z 101).
Proof. reflexivity. Qed.

(** C4 as the specification has it fails where the token exchange is
    refused with a message of the gateway: the answer carries the generic
    message, not the gateway's. *)
Lemma C4_counterexample :
  validatePaymentRequest valid_request = Ok ([], "254712345678")
  /\ token_reply env_token_refused
     = Rejected (Some "Invalid Authentication passed")
  /\ fst (post_initiate sandbox env_token_refused valid_request empty_world)
     = Ok (res_status_json 500
             (InitiateFailure "1" "Payment initiation failed"))
  /\ fst (post_initiate sandbox env_token_refused valid_request empty_world)
     <> Ok (res_status_json 500
              (InitiateFailure "1" "Invalid Authentication passed")).
Proof.
  split; [reflexivity|]. split; [reflexivity|]. split; [reflexivity|].
  discriminate.
Qed.

(** C4, amended. For a request that passes the validation: when the token
    exchange fails the answer is 500 with the generic message, whatever the
    gateway said; when the push is refused the answer is 500 with the
    [errorMessage] of the gateway's reply when there is one and it is not
    empty, and with the generic message otherwise.  Either way no record is
    put into the store. *)
Theorem C4_gateway_failure (cfg : config) (env : initiate_env)
  (req : initiate_request) (w : world) (phone : string) :
  validatePaymentRequest req = Ok ([], phone) ->
  (forall m, token_reply env = Rejected m ->
     fst (post_initiate cfg env req w)
     = Ok (res_status_json 500
             (InitiateFailure "1" "Payment initiation failed"))
     /\ transactions (snd (post_initiate cfg env req w)) = transactions w)
  /\ (forall data token m,
        token_reply env = Resolved data ->
        get_prop data "access_token" = Ok token ->
        push_reply env = Rejected m ->
        fst (post_initiate cfg env req w)
        = Ok (res_status_json 500
                (InitiateFailure "1"
                   (match m with
                    | Some (String c r) => String c r
                    | _ => "Payment initiation failed"
                    end)))
        /\ transactions (snd (post_initiate cfg env req w)) = transactions w).
Proof.
  intros V. split.
  - intros m Ht.
    unfold post_initiate, try_catch, bind, lift, getAccessToken, try_catch,
      bind, send, await, throw, ret.
    rewrite V, Ht. split; reflexivity.
  - intros data token m Ht Hk Hp.
    unfold post_initiate, try_catch, bind, lift, getAccessToken, try_catch,
      bind, send, await, throw, ret, lift.
    rewrite V, Ht; simpl. rewrite Hk, Hp; simpl.
    split; reflexivity.
Qed.

Lemma C4_witness :
  validatePaymentRequest valid_request = Ok ([], "254712345678")
  /\ push_reply env_push_refused
     = Rejected (Some "Bad Request - Invalid PhoneNumber")
  /\ fst (post_initiate sandbox env_push_refused valid_request empty_world)
     = Ok (res_status_json 500
             (InitiateFailure "1" "Bad Request - Invalid PhoneNumber"))
  /\ transactions
       (snd (post_initiate sandbox env_push_refused valid_request empty_world))
     = transactions empty_world.
Proof.
  split; [reflexivity|]. split; [reflexivity|].
  apply (proj2 (C4_gateway_failure sandbox env_push_refused valid_request
                  empty_world "254712345678" eq_refl)
           (Some token_response)
           (Some (JStr "c9SQxWWhmdVRlyh0zh8gZDTkubVF"))
           (Some "Bad Request - Invalid PhoneNumber"));
    reflexivity.
Defined.

(** An accepted initiation, from end to end: two calls, one [PENDING]
    record under the generated id, and the gateway's codes in the answer. *)
Example initiation_accepted :
post_initiate sandbox env_accepted valid_request empty_world
= (Ok (res_json
         (InitiateAccepted (Some (JStr "0"))
            (Some (JStr "Success. Request accepted for processing"))
            "TXN_1455641787000_k3j9x0q2a" (Some (JStr "ws_CO_1")))),
   {| transactions :=
        [("TXN_1455641787000_k3j9x0q2a",
          {| transactionId := "TXN_1455641787000_k3j9x0q2a";
             checkoutRequestId := Some (JStr "ws_CO_1");
             merchantRequestId := Some (JStr "29115-34620561-1");
             amount := Fin (201 # 2);
             phoneNumber := "254712345678";
             accountReference := Some "ORDER_1";
             status := PENDING;
             timestamp := 1455641787500;
             mpesaResponse := Some accepted_push;
             mpesaReceiptNumber := None;
             failureReason := None;
             callbackReceived := None;
             callbackData := None |})];
      calls :=
        [oauth_call sandbox;
         push_call sandbox env_accepted valid_request "254712345678"
           (Some (JStr "c9SQxWWhmdVRlyh0zh8gZDTkubVF"))] |}).
Proof. vm_compute. reflexivity. Qed.

(** [isNaN] and [parseFloat] read a blank string differently, as 0 and as
    NaN: a blank amount passes both tests of the validation, and the push
    goes out with the amount NaN. *)
Example blank_amount_passes :
isNaN (Some "   ") = false
/\ parseFloat "   " = NaN
/\ validatePaymentRequest blank_amount_request = Ok ([], "254712345678")
/\ calls_made (post_initiate sandbox env_accepted blank_amount_request)
     empty_world
   = [oauth_call sandbox;
      push_call sandbox env_accepted blank_amount_request "254712345678"
        (Some (JStr "c9SQxWWhmdVRlyh0zh8gZDTkubVF"))]
/\ Amount (stkPushData_of sandbox "password" "20160216165627"
             blank_amount_request "254712345678")
   = NaN.
Proof. repeat split; vm_compute; reflexivity. Qed.

(** *** The store after an initiation *)


Lemma Map_get_set_same (k : string) (t : transaction) (m : store) :
  Map_get k (Map_set k t m) = Some t.
Proof.
  induction m as [|[k0 t0] r IH]; simpl.
  - now rewrite String.eqb_refl.
  - destruct (String.eqb_spec k0 k) as [->|N]; simpl.
    + now rewrite String.eqb_refl.
    + destruct (String.eqb_spec k0 k); congruence.
Qed.

(** An initiation leaves the store as it is or puts one [PENDING] record
    under the id it has generated. *)
Lemma post_initiate_store (cfg : config) (env : initiate_env)
  (req : initiate_request) (w : world) :
  transactions (snd (post_initiate cfg env req w)) = transactions w
  \/ exists t,
       (status t = PENDING
        /\ transactionId t
           = generateTransactionId (date_now env) (random_suffix env))
       /\ transactions (snd (post_initiate cfg env req w))
          = Map_set (generateTransactionId (date_now env) (random_suffix env))
              t (transactions w).
Proof.
  unfold post_initiate, try_catch, bind, lift, getAccessToken, try_catch,
    bind, send, await, modify_store, ret, throw, lift.
  destruct (validatePaymentRequest req) as [[[|e errors] phone]|err]; simpl;
    try (left; reflexivity).
  destruct (token_reply env) as [data|m]; simpl; try (left; reflexivity).
  destruct (get_prop data "access_token") as [token|]; simpl;
    try (left; reflexivity).
  destruct (push_reply env) as [resp|m]; simpl; try (left; reflexivity).
  destruct (get_prop resp "CheckoutRequestID"); simpl;
    try (left; reflexivity).
  destruct (get_prop resp "MerchantRequestID"); simpl;
    try (left; reflexivity).
  destruct (get_prop resp "ResponseCode"); simpl;
    [|right; eexists; split; [|reflexivity]; split; reflexivity].
  destruct (get_prop resp "ResponseDescription"); simpl;
    right; eexists; (split; [|reflexivity]); split; reflexivity.
Qed.


Lemma Map_set_well_keyed (k : string) (t : transaction) (m : store) :
  transactionId t = k -> well_keyed m -> well_keyed (Map_set k t m).
Proof.
  intros Ht. unfold well_keyed.
  induction m as [|[k0 t0] r IH]; simpl; intros H.
  - repeat constructor. exact Ht.
  - inversion_clear H as [|? ? H0 Hr].
    destruct (String.eqb_spec k0 k) as [->|N]; constructor; auto.
Qed.

Lemma post_initiate_well_keyed (cfg : config) (env : initiate_env)
  (req : initiate_request) (w : world) :
  well_keyed (transactions w) ->
  well_keyed (transactions (snd (post_initiate cfg env req w))).
Proof.
  intros H.
  destruct (post_initiate_store cfg env req w)
    as [-> | (t & [_ Hid] & ->)]; [exact H|].
  now apply Map_set_well_keyed.
Qed.

End Initiation.
(** ** The callback handler and the status query *)

Section Callback.
Import JsString JsNumber Phone Config Json Server Fixtures.



(** The [catch] is not idle: a payload without the envelope makes the
    [try] block throw. *)
Example callback_without_envelope (now : Z) (w : world) :
  callback_body now (Some (JObj [])) w = (Throw TypeError, w)
  /\ post_callback now (Some (JObj [])) w = (Ok ack, w).
Proof. split; reflexivity. Qed.

(** C9. The status query of an id that is not in the store answers 404
    with an error body; of an id in the store, 200 with its id and the
    record's status, amount, phone number, timestamp and receipt number as
    they are in the store; in both cases nothing changes. *)
Theorem C9_status_query (id : string) (w : world) :
  (Map_get id (transactions w) = None ->
   get_status id w
   = (Ok (res_status_json 404 (StatusNotFound "Transaction not found")), w))
  /\ (forall t, Map_get id (transactions w) = Some t ->
      get_status id w
      = (Ok (res_json
               (StatusFound id (status t) (amount t) (phoneNumber t)
                  (timestamp t) (mpesaReceiptNumber t))), w)).
Proof.
  unfold get_status, bind, get_store, ret.
  split; [intros H | intros t H]; rewrite H; reflexivity.
Qed.

Lemma C9_witness :
  Map_get "TXN_0" (transactions world_paid) = None
  /\ get_status "TXN_0" world_paid
     = (Ok (res_status_json 404 (StatusNotFound "Transaction not found")),
        world_paid)
  /\ Map_get "TXN_1455641787000_k3j9x0q2a" (transactions world_paid)
     = Some paid
  /\ get_status "TXN_1455641787000_k3j9x0q2a" world_paid
     = (Ok (res_json
              (StatusFound "TXN_1455641787000_k3j9x0q2a" SUCCESS
                 (Fin (201 # 2)) "254712345678" 1455641787500
                 (Some (JStr "NLJ7RT61SV")))), world_paid).
Proof.
  split; [reflexivity|].
  split; [apply (proj1 (C9_status_query "TXN_0" world_paid)); reflexivity|].
  split; [reflexivity|].
  apply (proj2 (C9_status_query "TXN_1455641787000_k3j9x0q2a" world_paid)
           paid); reflexivity.
Defined.

(** *** What a callback writes *)

Lemma update_at_twice (i : nat) (f g : transaction -> transaction)
  (m : store) :
  update_at i g (update_at i f m) = update_at i (fun t => g (f t)) m.
Proof.
  revert i; induction m as [|[k t] r IH]; intros [|j]; simpl;
    try reflexivity.
  now rewrite IH.
Qed.

Lemma update_at_keys (i : nat) (f : transaction -> transaction) (m : store) :
  map fst (update_at i f m) = map fst m.
Proof.
  revert i; induction m as [|[k t] r IH]; intros [|j]; simpl;
    try reflexivity.
  now rewrite IH.
Qed.


Lemma update_at_there (i : nat) (f : transaction -> transaction) (m : store)
  (k : string) (t : transaction) :
  nth_error m i = Some (k, t) ->
  nth_error (update_at i f m) i = Some (k, f t).
Proof.
  revert i; induction m as [|[k' t'] r IH]; intros [|i] H; simpl in *;
    try discriminate.
  - now inversion H.
  - now apply IH.
Qed.

(** The record found is in the store, and the first with the id of the
    callback. *)
Lemma find_from_found (pred : transaction -> result bool) (s i : nat)
  (ts : list transaction) :
  find_from pred s ts = Ok (Some i) ->
  (s <= i)%nat
  /\ exists t, nth_error ts (i - s) = Some t /\ pred t = Ok true.
Proof.
  revert s; induction ts as [|t r IH]; intros s; simpl; [discriminate|].
  destruct (pred t) as [[|]|] eqn:E; try discriminate.
  - intros H; inversion H; subst. rewrite Nat.sub_diag.
    split; [lia|]. exists t; split; [reflexivity | exact E].
  - intros H. destruct (IH _ H) as (Hle & t' & Hn & Hp).
    split; [lia|]. exists t'. split; [|exact Hp].
    replace (i - s)%nat with (S (i - S s)) by lia. exact Hn.
Qed.

(** A callback that finds its record writes the status that its result
    code gives to that record and touches no other. *)
Lemma callback_writes_status (now : Z) (req_body : jsval) (w : world)
  (cb : jsval) (i : nat) :
  find_by_callback req_body (transactions w) = Ok (cb, Some i) ->
  exists rc f,
    get_prop cb "ResultCode" = Ok rc
    /\ transactions (snd (post_callback now req_body w))
       = update_at i f (transactions w)
    /\ forall t, status (f t)
                 = (if strict_eq rc (Some (JNum 0)) then SUCCESS else FAILED)
                 /\ transactionId (f t) = transactionId t
                 /\ checkoutRequestId (f t) = checkoutRequestId t.
Proof.
  intros H.
  assert (exists fs, cb = Some (JObj fs) \/
                     (get_prop cb "ResultCode" = Ok None
                      /\ get_prop cb "ResultDesc" = Ok None
                      /\ receipt_of cb = Ok None)) as Hcb.
  { unfold find_by_callback in H.
    destruct (get_prop req_body "Body") as [B|]; [|discriminate].
    destruct (get_prop B "stkCallback") as [cb'|]; [|discriminate].
    destruct (find_transaction _ _) as [found|] eqn:F; [|discriminate].
    inversion H; subst cb' found.
    apply find_from_found in F as (_ & t & _ & Hp).
    unfold same_checkout in Hp.
    destruct cb as [[| | | | |fs]|]; try discriminate;
      try (exists []; right; repeat split; reflexivity).
    exists fs; left; reflexivity. }
  unfold post_callback, try_catch, callback_body, bind, lift, get_store,
    modify_store, ret.
  rewrite H.
  destruct Hcb as (fs & [-> | (Hrc & Hrd & Hre)]).
  - simpl get_prop.
    exists (own_property "ResultCode" fs).
    destruct (strict_eq (own_property "ResultCode" fs) (Some (JNum 0))).
    + destruct (receipt_of (Some (JObj fs))) as [receipt|e]; simpl.
      * eexists; split; [reflexivity|]. rewrite !update_at_twice.
        split; [reflexivity|]. intros t; repeat split; reflexivity.
      * exists (set_status SUCCESS). split; [reflexivity|].
        split; [reflexivity|]. intros t; repeat split; reflexivity.
    + simpl. eexists; split; [reflexivity|]. rewrite !update_at_twice.
      split; [reflexivity|]. intros t; repeat split; reflexivity.
  - rewrite Hrc. exists None. simpl strict_eq. cbv iota.
    rewrite Hrd. simpl. eexists; split; [reflexivity|].
    rewrite !update_at_twice.
    split; [reflexivity|]. intros t; repeat split; reflexivity.
Qed.

(** A callback that finds no record, or fails before it has looked,
    leaves the world as it was. *)
Lemma callback_without_record (now : Z) (req_body : jsval) (w : world) :
  (forall cb i, find_by_callback req_body (transactions w) <> Ok (cb, Some i)) ->
  post_callback now req_body w = (Ok ack, w).
Proof.
  intros H.
  unfold post_callback, try_catch, callback_body, bind, lift, get_store, ret.
  destruct (find_by_callback req_body (transactions w)) as [[cb [i|]]|];
    try reflexivity.
  now destruct (H cb i).
Qed.

Lemma find_by_callback_record (req_body : jsval) (m : store) (cb : jsval)
  (i : nat) :
  find_by_callback req_body m = Ok (cb, Some i) ->
  exists k t cid,
    nth_error m i = Some (k, t)
    /\ get_prop cb "CheckoutRequestID" = Ok cid
    /\ strict_eq (checkoutRequestId t) cid = true.
Proof.
  unfold find_by_callback. intros H.
  destruct (get_prop req_body "Body") as [B|]; [|discriminate].
  destruct (get_prop B "stkCallback") as [cb'|]; [|discriminate].
  destruct (find_transaction _ _) as [found|] eqn:F; [|discriminate].
  inversion H; subst cb' found.
  apply find_from_found in F as (_ & t & Hn & Hp).
  rewrite Nat.sub_0_r in Hn. unfold Map_values in Hn.
  rewrite nth_error_map in Hn.
  destruct (nth_error m i) as [[k t']|]; [|discriminate].
  simpl in Hn. inversion Hn; subst t'.
  unfold same_checkout in Hp.
  destruct (get_prop cb "CheckoutRequestID") as [cid|]; [|discriminate].
  exists k, t, cid. repeat split. congruence.
Qed.




(** The first callback of a payment: the record found by its
    CheckoutRequestID goes from [PENDING] to [SUCCESS], with the receipt
    number taken from the metadata by name. *)
Example callback_resolves_pending :
option_map (fun t => (status t, mpesaReceiptNumber t, callbackReceived t))
  (Map_get "TXN_1455641787000_k3j9x0q2a"
     (transactions
        (snd (post_callback 1455641800000 callback_paid
                (snd (post_initiate sandbox env_accepted valid_request
                        empty_world))))))
= Some (SUCCESS, Some (JStr "NLJ7RT61SV"), Some 1455641800000%Z).
Proof. vm_compute. reflexivity. Qed.

(** *** Records and their ids *)

Lemma update_at_well_keyed (i : nat) (f : transaction -> transaction)
  (m : store) :
  (forall t, transactionId (f t) = transactionId t) ->
  well_keyed m -> well_keyed (update_at i f m).
Proof.
  intros Hf. unfold well_keyed.
  revert i; induction m as [|[k t] r IH]; intros [|j] H; simpl;
    try constructor; inversion_clear H as [|? ? H0 Hr]; simpl in *; auto.
  now rewrite Hf.
Qed.

Lemma post_callback_well_keyed (now : Z) (req_body : jsval) (w : world) :
  well_keyed (transactions w) ->
  well_keyed (transactions (snd (post_callback now req_body w))).
Proof.
  intros H.
  destruct (find_by_callback req_body (transactions w)) as [[cb [i|]]|e]
    eqn:F.
  - destruct (callback_writes_status now req_body w cb i F)
      as (rc & f & _ & -> & Hf).
    apply update_at_well_keyed; [|exact H]. intros t; apply Hf.
  - rewrite callback_without_record; [exact H|]. intros cb' i'; congruence.
  - rewrite callback_without_record; [exact H|]. intros cb' i'; congruence.
Qed.

Lemma reachable_well_keyed (w : world) :
  reachable w -> well_keyed (transactions w).
Proof.
  induction 1 as [|c w _ IH]; [constructor|].
  destruct c as [cfg env req|now b|id| |iso]; simpl.
  - now apply post_initiate_well_keyed.
  - now apply post_callback_well_keyed.
  - unfold get_status, bind, get_store, ret.
    now destruct (Map_get id (transactions w)).
  - exact IH.
  - exact IH.
Qed.

(** In a world that the server can be in, the id that the status query
    answers with is the id inside the record. *)
Lemma stored_under_own_id (w : world) (id : string) (t : transaction) :
  reachable w -> Map_get id (transactions w) = Some t ->
  transactionId t = id.
Proof.
  intros Hr. apply reachable_well_keyed in Hr. unfold well_keyed in Hr.
  induction (transactions w) as [|[k t0] r IH]; simpl; [discriminate|].
  inversion_clear Hr as [|? ? H0 Hrest].
  destruct (String.eqb_spec k id) as [->|N].
  - intros H; inversion H; subst. exact H0.
  - now apply IH.
Qed.

End Callback.

(** ** The wizard *)

Section WizardFlow.
Import JsString JsNumber Phone Wizard.

(** C6. When the initiation call of a wizard in the processing step
    completes: a 2xx response whose [ResponseCode] is "0" takes the wizard
    to success; any other response with a body takes it to error, with the
    [errorMessage] of the body when it has one (and that is not empty) and
    the generic failure message otherwise; a call that throws (the network,
    or a body that is no JSON) takes it to error with the network-error
    message. *)
Theorem C6_resolution (w : wizard) (o : fetch_outcome) :
  step w = step_processing ->
  (forall status data,
      o = FetchResponse status (Some data) ->
      (200 <= status <= 299)%nat ->
      ResponseCode data = Some "0" ->
      step (fst (dispatch (FetchDone o) w)) = step_success)
  /\ (forall status data,
        o = FetchResponse status (Some data) ->
        ((status < 200)%nat \/ (299 < status)%nat
         \/ ResponseCode data <> Some "0") ->
        step (fst (dispatch (FetchDone o) w)) = step_error
        /\ error (fst (dispatch (FetchDone o) w))
           = match errorMessage data with
             | Some (String c r) => String c r
             | _ => "Payment failed. Please try again."
             end)
  /\ ((o = FetchRejected \/ exists status, o = FetchResponse status None) ->
      step (fst (dispatch (FetchDone o) w)) = step_error
      /\ error (fst (dispatch (FetchDone o) w))
         = "Network error. Please check your connection and try again.").
Proof.
  intros Hs. unfold dispatch. rewrite Hs.
  unfold initiatePayment_resolve, response_ok. cbv [fst].
  split; [|split].
  - intros status data -> [H1 H2] Hc. cbv beta match. rewrite Hc.
    apply Nat.leb_le in H1, H2. rewrite H1, H2. reflexivity.
  - intros status data -> H. cbv beta match.
    assert ((200 <=? status)%nat && (status <=? 299)%nat
            && match ResponseCode data with
               | Some c => String.eqb c "0"
               | None => false
               end = false) as ->.
    { destruct H as [H | [H | H]].
      - apply Nat.leb_gt in H. now rewrite H.
      - apply Nat.leb_gt in H. rewrite H. now rewrite andb_false_r.
      - destruct (ResponseCode data) as [c|]; [|now rewrite andb_false_r].
        destruct (String.eqb_spec c "0"); [congruence|].
        now rewrite andb_false_r. }
    split; reflexivity.
  - intros [-> | (status & ->)]; split; reflexivity.
Qed.

Lemma C6_witness :
  step in_flight = step_processing
  /\ step (fst (dispatch
                  (FetchDone
                     (FetchResponse 200
                        (Some {| ResponseCode := Some "0";
                                 errorMessage := None |})))
                  in_flight))
     = step_success.
Proof.
  split; [reflexivity|].
  apply (proj1 (C6_resolution in_flight
                  (FetchResponse 200
                     (Some {| ResponseCode := Some "0";
                              errorMessage := None |}))
                  eq_refl)
           200%nat {| ResponseCode := Some "0"; errorMessage := None |});
    [reflexivity | lia | reflexivity].
Defined.

(** The server's own refusals reach the customer. *)
Example resolution_of_a_refusal :
  dispatch
    (FetchDone
       (FetchResponse 400
          (Some {| ResponseCode := Some "1";
                   errorMessage := Some "Invalid amount" |})))
    in_flight
  = ({| step := step_error; formData := formData in_flight;
        loading := false; error := "Invalid amount" |}, []).
Proof. reflexivity. Qed.

(** *** The PIN stays in the browser *)









End WizardFlow.

(** * Further properties of the code *)

(** ** Utility functions of the server *)

Section Utilities.
Import JsString JsNumber Phone Base64 Config Json Server Fixtures Scenarios.

Lemma strip_non_digits_digits (s : string) :
  all_digits (strip_non_digits s) = true.
Proof.
  induction s as [|c r IH]; simpl; [reflexivity|].
  destruct (is_digit c) eqn:E; simpl; [rewrite E|]; exact IH.
Qed.

Lemma prefix_cons (c a : ascii) (p s : string) :
  String.prefix (String c p) (String a s)
  = if ascii_dec c a then String.prefix p s else false.
Proof. reflexivity. Qed.

Lemma startsWith_app (s p : string) :
  startsWith s p = true -> exists r, s = p ++ r.
Proof.
  unfold startsWith. revert s; induction p as [|c p IH]; intros s H.
  - now exists s.
  - destruct s as [|a s]; [discriminate|].
    rewrite prefix_cons in H.
    destruct (ascii_dec c a) as [->|]; [|discriminate].
    destruct (IH s H) as (r & ->). now exists r.
Qed.

Lemma startsWith_own_prefix (p r : string) : startsWith (p ++ r) p = true.
Proof.
  unfold startsWith. induction p as [|c p IH].
  - now destruct r.
  - change (String c p ++ r) with (String c (p ++ r)).
    rewrite prefix_cons. now destruct (ascii_dec c c).
Qed.

Lemma startsWith_split (s : string) (c : ascii) :
  startsWith s (String c EmptyString) = true ->
  exists r, s = String c r.
Proof. intros H. destruct (startsWith_app _ _ H) as (r & ->). now exists r. Qed.

Lemma startsWith_254 (s : string) :
  startsWith s "254" = true -> exists r, s = "254" ++ r.
Proof. apply startsWith_app. Qed.

Lemma startsWith_254_app (r : string) : startsWith ("254" ++ r) "254" = true.
Proof. apply startsWith_own_prefix. Qed.

(** The three outcomes of the normalisation, by the digits of the input. *)
Lemma formatPhoneNumber_cases (s : string) :
  let d := strip_non_digits s in
  (exists r, d = String "0" r /\ formatPhoneNumber s = "254" ++ r)
  \/ (startsWith d "0" = false /\ startsWith d "254" = true
      /\ formatPhoneNumber s = d)
  \/ (startsWith d "0" = false /\ startsWith d "254" = false
      /\ formatPhoneNumber s = "254" ++ d).
Proof.
  intros d. unfold formatPhoneNumber. fold d.
  destruct (startsWith d "0") eqn:E0.
  - left. destruct (startsWith_split _ _ E0) as (r & Hr).
    exists r. split; [exact Hr|]. rewrite Hr. simpl substring_from.
    now rewrite startsWith_254_app.
  - right. destruct (startsWith d "254") eqn:E; simpl; [left|right]; auto.
Qed.

Lemma formatPhoneNumber_shape (s : string) :
  exists r, formatPhoneNumber s = "254" ++ r /\ all_digits r = true.
Proof.
  pose proof (strip_non_digits_digits s) as Hd.
  destruct (formatPhoneNumber_cases s)
    as [(r & Hr & ->) | [(_ & H & ->) | (_ & _ & ->)]].
  - exists r. split; [reflexivity|]. rewrite Hr in Hd. simpl in Hd.
    exact Hd.
  - destruct (startsWith_254 _ H) as (r & Hr). exists r.
    split; [exact Hr|]. rewrite Hr in Hd. simpl in Hd. exact Hd.
  - now exists (strip_non_digits s).
Qed.

(** X1. The normalisation is idempotent on every input, canonical or not:
    its result is made of digits only and starts with 254, and normalising
    it again gives it back. *)
Theorem X1_formatPhoneNumber_idempotent_everywhere (s : string) :
  all_digits (formatPhoneNumber s) = true
  /\ startsWith (formatPhoneNumber s) "254" = true
  /\ formatPhoneNumber (formatPhoneNumber s) = formatPhoneNumber s.
Proof.
  destruct (formatPhoneNumber_shape s) as (r & -> & Hr).
  split; [simpl; exact Hr|]. split; [apply startsWith_254_app|].
  unfold formatPhoneNumber.
  rewrite strip_non_digits_fixes_digits by (simpl; exact Hr).
  replace (startsWith ("254" ++ r) "0") with false by reflexivity.
  now rewrite startsWith_254_app.
Qed.

Lemma test_canonical_254 (r : string) :
  all_digits r = true ->
  test_canonical ("254" ++ r) = (String.length r =? 9)%nat.
Proof. intros H. simpl. rewrite H. apply andb_true_r. Qed.

(** X2. Which inputs the phone check of the validation accepts, by their
    digits alone: ten digits that start with 0, twelve that start with 254,
    or nine that start with neither. *)
Theorem X2_accepted_phone_numbers (s : string) :
  test_canonical (formatPhoneNumber s)
  = (let d := strip_non_digits s in
     if startsWith d "0" then (String.length d =? 10)%nat
     else if startsWith d "254" then (String.length d =? 12)%nat
     else (String.length d =? 9)%nat).
Proof.
  pose proof (strip_non_digits_digits s) as Hd. cbv zeta.
  destruct (formatPhoneNumber_cases s)
    as [(r & Hr & ->) | [(E0 & H & ->) | (E0 & H & ->)]].
  - rewrite Hr in *. simpl in Hd.
    rewrite test_canonical_254 by exact Hd.
    rewrite (startsWith_own_prefix "0" r : startsWith (String "0" r) "0" = true).
    reflexivity.
  - rewrite E0, H. destruct (startsWith_254 _ H) as (r & Hr).
    rewrite Hr in *. simpl in Hd.
    rewrite test_canonical_254 by exact Hd. reflexivity.
  - rewrite E0, H. now rewrite test_canonical_254.
Qed.

Lemma digits_then_underscore (a b r1 r2 : string) :
  all_digits a = true -> all_digits b = true ->
  a ++ "_" ++ r1 = b ++ "_" ++ r2 -> a = b /\ r1 = r2.
Proof.
  revert b; induction a as [|c a IH]; intros [|c' b] Ha Hb H; simpl in *.
  - now inversion H.
  - inversion H; subst c'. apply andb_prop in Hb as [Hc _]. discriminate.
  - inversion H; subst c. apply andb_prop in Ha as [Hc _]. discriminate.
  - inversion H; subst c'.
    apply andb_prop in Ha as [_ Ha]. apply andb_prop in Hb as [_ Hb].
    destruct (IH b Ha Hb) as [-> ->]; auto.
Qed.

(** X4. Two transaction ids are the same only when both the clock and the
    random suffix were the same: with the clock printed in digits, the id
    tells the two apart. *)
Theorem X4_generateTransactionId_injective (now1 now2 rnd1 rnd2 : string) :
  all_digits now1 = true -> all_digits now2 = true ->
  generateTransactionId now1 rnd1 = generateTransactionId now2 rnd2 ->
  now1 = now2 /\ rnd1 = rnd2.
Proof.
  intros H1 H2 H. unfold generateTransactionId in H. simpl in H.
  inversion H as [H'].
  exact (digits_then_underscore now1 now2 rnd1 rnd2 H1 H2 H').
Qed.

Lemma X4_witness :
  all_digits "1455641787000" = true
  /\ generateTransactionId "1455641787000" "k3j9x0q2a"
     = generateTransactionId "1455641787000" "k3j9x0q2a"
  /\ "1455641787000" = "1455641787000" /\ "k3j9x0q2a" = "k3j9x0q2a".
Proof.
  split; [reflexivity|]. split; [reflexivity|].
  apply (X4_generateTransactionId_injective
           "1455641787000" "1455641787000" "k3j9x0q2a" "k3j9x0q2a");
    reflexivity.
Defined.

Lemma strip_iso_marks_app (a b : string) :
  strip_iso_marks (a ++ b) = strip_iso_marks a ++ strip_iso_marks b.
Proof.
  induction a as [|c a IH]; simpl; [reflexivity|].
  rewrite IH. now destruct (Ascii.eqb c "-" || Ascii.eqb c ":"
                            || Ascii.eqb c "." || Ascii.eqb c "T"
                            || Ascii.eqb c "Z").
Qed.

Lemma digit_is_no_mark (c : ascii) :
  is_digit c = true ->
  Ascii.eqb c "-" || Ascii.eqb c ":" || Ascii.eqb c "."
  || Ascii.eqb c "T" || Ascii.eqb c "Z" = false.
Proof.
  intros H.
  destruct (Ascii.eqb_spec c "-") as [->|]; [discriminate|].
  destruct (Ascii.eqb_spec c ":") as [->|]; [discriminate|].
  destruct (Ascii.eqb_spec c ".") as [->|]; [discriminate|].
  destruct (Ascii.eqb_spec c "T") as [->|]; [discriminate|].
  destruct (Ascii.eqb_spec c "Z") as [->|]; [discriminate|].
  reflexivity.
Qed.

Lemma strip_iso_marks_digits (s : string) :
  all_digits s = true -> strip_iso_marks s = s.
Proof.
  induction s as [|c r IH]; simpl; intros H; [reflexivity|].
  apply andb_prop in H as [Hc Hr].
  rewrite (digit_is_no_mark c Hc), (IH Hr). reflexivity.
Qed.

Lemma all_digits_app (a b : string) :
  all_digits (a ++ b) = all_digits a && all_digits b.
Proof.
  induction a as [|c a IH]; simpl; [reflexivity|].
  now rewrite IH, andb_assoc.
Qed.

Lemma string_length_app (a b : string) :
  String.length (a ++ b) = (String.length a + String.length b)%nat.
Proof. induction a as [|c a IH]; simpl; [reflexivity|]. now rewrite IH. Qed.

Lemma slice_to_app (a b : string) :
  slice_to (String.length a) (a ++ b) = a.
Proof. induction a as [|c a IH]; simpl; [now destruct b|]. now rewrite IH. Qed.

Lemma append_empty_r (a : string) : a ++ EmptyString = a.
Proof. induction a as [|x a IH]; simpl; [reflexivity|]. now rewrite IH. Qed.

Lemma append_assoc (a b c : string) : (a ++ b) ++ c = a ++ b ++ c.
Proof. induction a as [|x a IH]; simpl; [reflexivity|]. now rewrite IH. Qed.

(** X5. For the ISO text of a date with a four-digit year, the timestamp of
    the push is the fourteen digits YYYYMMDDHHmmss: the marks are dropped and
    the milliseconds cut off. *)
Theorem X5_timestamp_of_iso (Y M D h m s f : string) :
  all_digits (Y ++ M ++ D ++ h ++ m ++ s ++ f) = true ->
  String.length (Y ++ M ++ D ++ h ++ m ++ s) = 14%nat ->
  timestamp_of (iso_of Y M D h m s f) = Y ++ M ++ D ++ h ++ m ++ s
  /\ is_timestamp14 (timestamp_of (iso_of Y M D h m s f)) = true.
Proof.
  intros Hd Hl.
  rewrite !all_digits_app in Hd.
  apply andb_prop in Hd as [HY Hd]. apply andb_prop in Hd as [HM Hd].
  apply andb_prop in Hd as [HD Hd]. apply andb_prop in Hd as [Hh Hd].
  apply andb_prop in Hd as [Hm Hd]. apply andb_prop in Hd as [Hs Hf].
  assert (strip_iso_marks (iso_of Y M D h m s f)
          = (Y ++ M ++ D ++ h ++ m ++ s) ++ f) as E.
  { unfold iso_of. rewrite !strip_iso_marks_app. simpl.
    rewrite !strip_iso_marks_digits by assumption.
    rewrite append_empty_r, !append_assoc. reflexivity. }
  assert (timestamp_of (iso_of Y M D h m s f) = Y ++ M ++ D ++ h ++ m ++ s)
    as T.
  { unfold timestamp_of. rewrite E, <- Hl. apply slice_to_app. }
  split; [exact T|]. rewrite T. unfold is_timestamp14.
  rewrite Hl, !all_digits_app, HY, HM, HD, Hh, Hm, Hs. reflexivity.
Qed.

Lemma X5_witness :
  all_digits ("2016" ++ "02" ++ "16" ++ "16" ++ "56" ++ "27" ++ "123") = true
  /\ String.length ("2016" ++ "02" ++ "16" ++ "16" ++ "56" ++ "27") = 14%nat
  /\ timestamp_of (iso_of "2016" "02" "16" "16" "56" "27" "123")
     = "2016" ++ "02" ++ "16" ++ "16" ++ "56" ++ "27"
  /\ is_timestamp14
       (timestamp_of (iso_of "2016" "02" "16" "16" "56" "27" "123")) = true.
Proof.
  split; [reflexivity|]. split; [reflexivity|].
  apply (X5_timestamp_of_iso "2016" "02" "16" "16" "56" "27" "123");
    reflexivity.
Defined.

End Utilities.

(** ** The initiation handler, further *)

Section InitiationFurther.
Import JsString JsNumber Phone Base64 Config Json Server Fixtures Scenarios.

(** X6. The validation passes exactly when the amount is a non-empty text
    that [Number] reads as a number and [parseFloat] reads as not below 1,
    the phone number normalises to 254 and nine digits, and the account
    reference has three characters or more; the phone number it gives back
    is the normalised one. *)
Theorem X6_validation_passes_iff (req : initiate_request) (phone : string) :
  validatePaymentRequest req = Ok ([], phone)
  <-> exists a raw ref,
        req_amount req = Some a /\ req_phoneNumber req = Some raw
        /\ req_accountReference req = Some ref
        /\ a <> EmptyString /\ isNaN (Some a) = false
        /\ lt_one (parseFloat a) = false
        /\ phone = formatPhoneNumber raw /\ test_canonical phone = true
        /\ (3 <= String.length ref)%nat.
Proof.
  split; [apply validation_passed|].
  intros (a & raw & ref & Ha & Hraw & Href & Hne & Hnan & Hlt & -> & Hc & Hl).
  rewrite (validation_checks req raw Hraw), Ha, Href.
  destruct a as [|c a]; [congruence|]. simpl truthy. simpl negb.
  rewrite orb_false_l. simpl parseFloat_value. rewrite Hnan, Hlt, Hc.
  destruct ref as [|c' ref]; [simpl in Hl; lia|]. simpl truthy. simpl negb.
  rewrite orb_false_l.
  destruct (Nat.ltb_spec (String.length (String c' ref)) 3); [lia|].
  reflexivity.
Qed.

Lemma X6_witness :
  (exists a raw ref,
      req_amount valid_request = Some a
      /\ req_phoneNumber valid_request = Some raw
      /\ req_accountReference valid_request = Some ref
      /\ a <> EmptyString /\ isNaN (Some a) = false
      /\ lt_one (parseFloat a) = false
      /\ "254712345678" = formatPhoneNumber raw
      /\ test_canonical "254712345678" = true
      /\ (3 <= String.length ref)%nat)
  /\ validatePaymentRequest valid_request = Ok ([], "254712345678").
Proof.
  assert (exists a raw ref,
      req_amount valid_request = Some a
      /\ req_phoneNumber valid_request = Some raw
      /\ req_accountReference valid_request = Some ref
      /\ a <> EmptyString /\ isNaN (Some a) = false
      /\ lt_one (parseFloat a) = false
      /\ "254712345678" = formatPhoneNumber raw
      /\ test_canonical "254712345678" = true
      /\ (3 <= String.length ref)%nat) as H.
  { exists "100.5", "0712345678", "ORDER_1".
    repeat split; try reflexivity; [discriminate | simpl; lia]. }
  split; [exact H|].
  exact (proj2 (X6_validation_passes_iff valid_request "254712345678") H).
Defined.

(** The world and the answer of an initiation that the gateway accepts. *)
Lemma post_initiate_accepted (cfg : config) (env : initiate_env)
  (req : initiate_request) (w : world) (phone : string)
  (data resp token cid : jsval) :
  validatePaymentRequest req = Ok ([], phone) ->
  token_reply env = Resolved data ->
  get_prop data "access_token" = Ok token ->
  push_reply env = Resolved resp ->
  get_prop resp "CheckoutRequestID" = Ok cid ->
  exists mid rc rd,
    get_prop resp "MerchantRequestID" = Ok mid
    /\ get_prop resp "ResponseCode" = Ok rc
    /\ get_prop resp "ResponseDescription" = Ok rd
    /\ post_initiate cfg env req w
       = (Ok (res_json
                (InitiateAccepted rc rd
                   (generateTransactionId (date_now env) (random_suffix env))
                   cid)),
          {| transactions :=
               Map_set
                 (generateTransactionId (date_now env) (random_suffix env))
                 {| transactionId :=
                      generateTransactionId (date_now env) (random_suffix env);
                    checkoutRequestId := cid;
                    merchantRequestId := mid;
                    amount := parseFloat_value (req_amount req);
                    phoneNumber := phone;
                    accountReference := req_accountReference req;
                    status := PENDING;
                    timestamp := stored_at env;
                    mpesaResponse := resp;
                    mpesaReceiptNumber := None;
                    failureReason := None;
                    callbackReceived := None;
                    callbackData := None |}
                 (transactions w);
             calls :=
               (calls w
                ++ [oauth_call cfg; push_call cfg env req phone token])%list |}).
Proof.
  intros V Ht Hk Hp Hc.
  assert (exists fs, resp = Some (JObj fs)
                     \/ (get_prop resp "MerchantRequestID" = Ok None
                         /\ get_prop resp "ResponseCode" = Ok None
                         /\ get_prop resp "ResponseDescription" = Ok None))
    as Hresp.
  { destruct resp as [[| | | | |fs]|]; try discriminate;
      try (exists []; right; repeat split; reflexivity).
    exists fs; now left. }
  unfold post_initiate, try_catch, bind, lift, getAccessToken, try_catch,
    bind, send, await, modify_store, ret, throw, lift.
  rewrite V, Ht; simpl. rewrite Hk, Hp; simpl. rewrite Hc; simpl.
  destruct Hresp as (fs & [-> | (H1 & H2 & H3)]).
  - simpl. do 3 eexists. repeat split.
    rewrite <- app_assoc. reflexivity.
  - rewrite H1; simpl. rewrite H2, H3; simpl.
    exists None, None, None. repeat split.
    rewrite <- app_assoc. reflexivity.
Qed.

(** X7. When the request passes the validation, the token exchange gives a
    body and the push is answered with a body, the handler answers 200 with
    the gateway's codes, the generated id and the gateway's
    CheckoutRequestID, and the store holds under the generated id a
    [PENDING] record with the parsed amount, the normalised phone number and
    that CheckoutRequestID, without receipt or failure reason. *)
Theorem X7_accepted_initiation_stores_pending (cfg : config)
  (env : initiate_env) (req : initiate_request) (w : world) (phone : string)
  (data resp token cid : jsval) :
  validatePaymentRequest req = Ok ([], phone) ->
  token_reply env = Resolved data ->
  get_prop data "access_token" = Ok token ->
  push_reply env = Resolved resp ->
  get_prop resp "CheckoutRequestID" = Ok cid ->
  let id := generateTransactionId (date_now env) (random_suffix env) in
  exists rc rd t,
    get_prop resp "ResponseCode" = Ok rc
    /\ get_prop resp "ResponseDescription" = Ok rd
    /\ fst (post_initiate cfg env req w)
       = Ok (res_json (InitiateAccepted rc rd id cid))
    /\ Map_get id (transactions (snd (post_initiate cfg env req w))) = Some t
    /\ transactionId t = id /\ status t = PENDING
    /\ checkoutRequestId t = cid
    /\ amount t = parseFloat_value (req_amount req)
    /\ phoneNumber t = phone
    /\ mpesaReceiptNumber t = None /\ failureReason t = None
    /\ callbackReceived t = None.
Proof.
  intros V Ht Hk Hp Hc id.
  destruct (post_initiate_accepted cfg env req w phone data resp token cid
              V Ht Hk Hp Hc) as (mid & rc & rd & _ & Hrc & Hrd & E).
  exists rc, rd. eexists. rewrite E. simpl.
  split; [exact Hrc|]. split; [exact Hrd|]. split; [reflexivity|].
  split; [apply Map_get_set_same|]. repeat split.
Qed.

Lemma X7_witness :
  validatePaymentRequest valid_request = Ok ([], "254712345678")
  /\ token_reply env_accepted = Resolved (Some token_response)
  /\ push_reply env_accepted = Resolved (Some accepted_push)
  /\ exists rc rd t,
      get_prop (Some accepted_push) "ResponseCode" = Ok rc
      /\ get_prop (Some accepted_push) "ResponseDescription" = Ok rd
      /\ fst (post_initiate sandbox env_accepted valid_request empty_world)
         = Ok (res_json
                 (InitiateAccepted rc rd
                    (generateTransactionId (date_now env_accepted)
                       (random_suffix env_accepted))
                    (Some (JStr "ws_CO_1"))))
      /\ Map_get
           (generateTransactionId (date_now env_accepted)
              (random_suffix env_accepted))
           (transactions
              (snd (post_initiate sandbox env_accepted valid_request
                      empty_world)))
         = Some t
      /\ transactionId t
         = generateTransactionId (date_now env_accepted)
             (random_suffix env_accepted)
      /\ status t = PENDING
      /\ checkoutRequestId t = Some (JStr "ws_CO_1")
      /\ amount t = parseFloat_value (req_amount valid_request)
      /\ phoneNumber t = "254712345678"
      /\ mpesaReceiptNumber t = None /\ failureReason t = None
      /\ callbackReceived t = None.
Proof.
  split; [reflexivity|]. split; [reflexivity|]. split; [reflexivity|].
  apply (X7_accepted_initiation_stores_pending sandbox env_accepted
           valid_request empty_world "254712345678" (Some token_response)
           (Some accepted_push) (Some (JStr "c9SQxWWhmdVRlyh0zh8gZDTkubVF"))
           (Some (JStr "ws_CO_1"))); reflexivity.
Defined.

(** X8. What an accepted initiation has stored, the status query of the id
    it has answered with reads back: 200, [PENDING], the parsed amount, the
    normalised phone number, the time of storing, and no receipt. *)
Theorem X8_status_after_initiation (cfg : config) (env : initiate_env)
  (req : initiate_request) (w : world) (phone : string)
  (data resp token cid : jsval) :
  validatePaymentRequest req = Ok ([], phone) ->
  token_reply env = Resolved data ->
  get_prop data "access_token" = Ok token ->
  push_reply env = Resolved resp ->
  get_prop resp "CheckoutRequestID" = Ok cid ->
  let id := generateTransactionId (date_now env) (random_suffix env) in
  fst (get_status id (snd (post_initiate cfg env req w)))
  = Ok (res_json
          (StatusFound id PENDING (parseFloat_value (req_amount req)) phone
             (stored_at env) None)).
Proof.
  intros V Ht Hk Hp Hc id.
  destruct (post_initiate_accepted cfg env req w phone data resp token cid
              V Ht Hk Hp Hc) as (mid & rc & rd & _ & _ & _ & E).
  rewrite E. unfold get_status, bind, get_store, ret. simpl.
  fold id. rewrite Map_get_set_same. reflexivity.
Qed.

Lemma X8_witness :
  validatePaymentRequest valid_request = Ok ([], "254712345678")
  /\ fst (get_status
            (generateTransactionId (date_now env_accepted)
               (random_suffix env_accepted))
            (snd (post_initiate sandbox env_accepted valid_request
                    empty_world)))
     = Ok (res_json
             (StatusFound
                (generateTransactionId (date_now env_accepted)
                   (random_suffix env_accepted))
                PENDING (parseFloat_value (req_amount valid_request))
                "254712345678" (stored_at env_accepted) None)).
Proof.
  split; [reflexivity|].
  apply (X8_status_after_initiation sandbox env_accepted valid_request
           empty_world "254712345678" (Some token_response)
           (Some accepted_push) (Some (JStr "c9SQxWWhmdVRlyh0zh8gZDTkubVF"))
           (Some (JStr "ws_CO_1"))); reflexivity.
Defined.

(** X9. When the push is answered without a body ([null] or nothing), the
    push has gone out, yet the handler answers 500 with the generic message
    and stores no record. *)
Theorem X9_push_without_body (cfg : config) (env : initiate_env)
  (req : initiate_request) (w : world) (phone : string)
  (data resp token : jsval) :
  validatePaymentRequest req = Ok ([], phone) ->
  token_reply env = Resolved data ->
  get_prop data "access_token" = Ok token ->
  push_reply env = Resolved resp ->
  resp = None \/ resp = Some JNull ->
  post_initiate cfg env req w
  = (Ok (res_status_json 500
           (InitiateFailure "1" "Payment initiation failed")),
     {| transactions := transactions w;
        calls :=
          (calls w ++ [oauth_call cfg; push_call cfg env req phone token])%list
     |}).
Proof.
  intros V Ht Hk Hp Hr.
  unfold post_initiate, try_catch, bind, lift, getAccessToken, try_catch,
    bind, send, await, modify_store, ret, throw, lift.
  rewrite V, Ht; simpl. rewrite Hk, Hp; simpl.
  destruct Hr as [-> | ->]; simpl; rewrite <- app_assoc; reflexivity.
Qed.

Lemma X9_witness :
  validatePaymentRequest valid_request = Ok ([], "254712345678")
  /\ push_reply env_push_empty = Resolved (Some JNull)
  /\ post_initiate sandbox env_push_empty valid_request empty_world
     = (Ok (res_status_json 500
              (InitiateFailure "1" "Payment initiation failed")),
        {| transactions := transactions empty_world;
           calls :=
             (calls empty_world
              ++ [oauth_call sandbox;
                  push_call sandbox env_push_empty valid_request
                    "254712345678"
                    (Some (JStr "c9SQxWWhmdVRlyh0zh8gZDTkubVF"))])%list |}).
Proof.
  split; [reflexivity|]. split; [reflexivity|].
  apply (X9_push_without_body sandbox env_push_empty valid_request
           empty_world "254712345678" (Some token_response) (Some JNull)
           (Some (JStr "c9SQxWWhmdVRlyh0zh8gZDTkubVF")));
    try reflexivity.
  right; reflexivity.
Defined.

(** X10. What an initiation sends out: nothing when the validation fails or
    throws; otherwise the token exchange, followed by one push exactly when
    the exchange has given a body. *)
Theorem X10_calls_of_an_initiation (cfg : config) (env : initiate_env)
  (req : initiate_request) (w : world) :
  calls_made (post_initiate cfg env req) w
  = match validatePaymentRequest req with
    | Ok ([], phone) =>
        oauth_call cfg
          :: match token_reply env with
             | Resolved data =>
                 match get_prop data "access_token" with
                 | Ok token => [push_call cfg env req phone token]
                 | Throw _ => []
                 end
             | Rejected _ => []
             end
    | _ => []
    end.
Proof.
  unfold calls_made.
  destruct (validatePaymentRequest req) as [[[|e errors] phone]|err] eqn:V.
  - rewrite (post_initiate_calls cfg env req w phone V).
    apply skipn_own_length.
  - rewrite (validation_errors_answer_400 cfg env req w e errors phone V).
    simpl. rewrite <- (app_nil_r (calls w)) at 2. apply skipn_own_length.
  - unfold post_initiate, try_catch, bind, lift. rewrite V. simpl.
    rewrite <- (app_nil_r (calls w)) at 2. apply skipn_own_length.
Qed.

(** X11. [getAccessToken] sends the one token request and touches no
    record; it gives the [access_token] of the body that came back, and
    fails in one way only, with the error "Failed to get access token",
    when the request is refused or comes back without a body. *)
Theorem X11_getAccessToken (cfg : config) (reply : axios_reply) (w : world) :
  snd (getAccessToken cfg reply w)
  = {| transactions := transactions w;
       calls := (calls w ++ [oauth_call cfg])%list |}
  /\ fst (getAccessToken cfg reply w)
     = match reply with
       | Resolved (Some (JObj fs)) => Ok (own_property "access_token" fs)
       | Resolved (Some JNull) | Resolved None | Rejected _ =>
           Throw (Error "Failed to get access token")
       | Resolved (Some _) => Ok None
       end.
Proof.
  unfold getAccessToken, try_catch, bind, send, await, lift, ret, throw.
  destruct reply as [[[| | | | |fs]|]|m]; split; reflexivity.
Qed.

End InitiationFurther.

(** ** The callback handler, further *)

Section CallbackFurther.
Import JsString JsNumber Phone Base64 Config Json Server Fixtures Scenarios.

Lemma find_by_callback_not_null (req_body : jsval) (m : store) (cb : jsval)
  (i : nat) :
  find_by_callback req_body m = Ok (cb, Some i) ->
  forall k, exists v, get_prop cb k = Ok v.
Proof.
  intros H k.
  destruct (find_by_callback_record _ _ _ _ H) as (_ & _ & cid & _ & Hc & _).
  destruct cb as [[| | | | |fs]|]; try discriminate; eexists; reflexivity.
Qed.

(** The world after a callback that has found its record. *)
Lemma callback_updates_record (now : Z) (req_body : jsval) (w : world)
  (cb : jsval) (i : nat) :
  find_by_callback req_body (transactions w) = Ok (cb, Some i) ->
  exists rc,
    get_prop cb "ResultCode" = Ok rc
    /\ post_callback now req_body w
       = (Ok ack,
          {| transactions :=
               update_at i (resolved_by now cb rc) (transactions w);
             calls := calls w |}).
Proof.
  intros H.
  destruct (find_by_callback_not_null _ _ _ _ H "ResultCode") as (rc & Hrc).
  destruct (find_by_callback_not_null _ _ _ _ H "ResultDesc") as (rd & Hrd).
  exists rc. split; [exact Hrc|].
  unfold post_callback, try_catch, callback_body, bind, lift, get_store,
    modify_store, ret, resolved_by.
  rewrite H, Hrc; simpl.
  destruct (strict_eq rc (Some (JNum 0))).
  - destruct (receipt_of cb) as [receipt|e]; simpl;
      rewrite ?update_at_twice; reflexivity.
  - simpl. rewrite Hrd; simpl. rewrite !update_at_twice. reflexivity.
Qed.

(** X12. A callback with result code 0 that finds its record leaves it
    [SUCCESS], with the receipt number read from the metadata, the time of
    the callback and the callback itself; every other field of the record,
    an earlier failure reason among them, stays as it was. *)
Theorem X12_callback_success_record (now : Z) (req_body : jsval) (w : world)
  (cb rc receipt : jsval) (i : nat) (k : string) (t : transaction) :
  find_by_callback req_body (transactions w) = Ok (cb, Some i) ->
  nth_error (transactions w) i = Some (k, t) ->
  get_prop cb "ResultCode" = Ok rc ->
  strict_eq rc (Some (JNum 0)) = true ->
  receipt_of cb = Ok receipt ->
  nth_error (transactions (snd (post_callback now req_body w))) i
  = Some (k,
          {| transactionId := transactionId t;
             checkoutRequestId := checkoutRequestId t;
             merchantRequestId := merchantRequestId t;
             amount := amount t;
             phoneNumber := phoneNumber t;
             accountReference := accountReference t;
             status := SUCCESS;
             timestamp := timestamp t;
             mpesaResponse := mpesaResponse t;
             mpesaReceiptNumber := receipt;
             failureReason := failureReason t;
             callbackReceived := Some now;
             callbackData := cb |}).
Proof.
  intros H Hn Hrc H0 Hre.
  destruct (callback_updates_record now req_body w cb i H) as (rc' & Hrc' & E).
  rewrite E. simpl. rewrite (update_at_there _ _ _ _ _ Hn).
  assert (rc' = rc) as -> by congruence.
  unfold resolved_by. rewrite H0, Hre. reflexivity.
Qed.

Lemma X12_witness :
  find_by_callback callback_paid (transactions world_waiting)
  = Ok (stk_paid, Some 0%nat)
  /\ receipt_of stk_paid = Ok (Some (JStr "NLJ7RT61SV"))
  /\ nth_error
       (transactions (snd (post_callback 1455641800000 callback_paid
                             world_waiting))) 0
     = Some ("TXN_1455641787000_k3j9x0q2a",
             {| transactionId := transactionId waiting;
                checkoutRequestId := checkoutRequestId waiting;
                merchantRequestId := merchantRequestId waiting;
                amount := amount waiting;
                phoneNumber := phoneNumber waiting;
                accountReference := accountReference waiting;
                status := SUCCESS;
                timestamp := timestamp waiting;
                mpesaResponse := mpesaResponse waiting;
                mpesaReceiptNumber := Some (JStr "NLJ7RT61SV");
                failureReason := failureReason waiting;
                callbackReceived := Some 1455641800000%Z;
                callbackData := stk_paid |}).
Proof.
  split; [reflexivity|]. split; [reflexivity|].
  apply (X12_callback_success_record 1455641800000%Z callback_paid
           world_waiting stk_paid (Some (JNum 0)) (Some (JStr "NLJ7RT61SV"))
           0%nat "TXN_1455641787000_k3j9x0q2a" waiting); reflexivity.
Defined.

(** X13. A callback with another result code that finds its record leaves
    it [FAILED], with the description of the callback as failure reason,
    word for word, the time of the callback and the callback itself; the
    receipt number and every other field stay as they were. *)
Theorem X13_callback_failure_record (now : Z) (req_body : jsval) (w : world)
  (cb rc desc : jsval) (i : nat) (k : string) (t : transaction) :
  find_by_callback req_body (transactions w) = Ok (cb, Some i) ->
  nth_error (transactions w) i = Some (k, t) ->
  get_prop cb "ResultCode" = Ok rc ->
  strict_eq rc (Some (JNum 0)) = false ->
  get_prop cb "ResultDesc" = Ok desc ->
  nth_error (transactions (snd (post_callback now req_body w))) i
  = Some (k,
          {| transactionId := transactionId t;
             checkoutRequestId := checkoutRequestId t;
             merchantRequestId := merchantRequestId t;
             amount := amount t;
             phoneNumber := phoneNumber t;
             accountReference := accountReference t;
             status := FAILED;
             timestamp := timestamp t;
             mpesaResponse := mpesaResponse t;
             mpesaReceiptNumber := mpesaReceiptNumber t;
             failureReason := desc;
             callbackReceived := Some now;
             callbackData := cb |}).
Proof.
  intros H Hn Hrc H0 Hd.
  destruct (callback_updates_record now req_body w cb i H) as (rc' & Hrc' & E).
  rewrite E. simpl. rewrite (update_at_there _ _ _ _ _ Hn).
  assert (rc' = rc) as -> by congruence.
  unfold resolved_by. rewrite H0, Hd. reflexivity.
Qed.

Lemma X13_witness :
  find_by_callback callback_cancelled (transactions world_waiting)
  = Ok (stk_cancelled, Some 0%nat)
  /\ nth_error
       (transactions (snd (post_callback 1455641800000 callback_cancelled
                             world_waiting))) 0
     = Some ("TXN_1455641787000_k3j9x0q2a",
             {| transactionId := transactionId waiting;
                checkoutRequestId := checkoutRequestId waiting;
                merchantRequestId := merchantRequestId waiting;
                amount := amount waiting;
                phoneNumber := phoneNumber waiting;
                accountReference := accountReference waiting;
                status := FAILED;
                timestamp := timestamp waiting;
                mpesaResponse := mpesaResponse waiting;
                mpesaReceiptNumber := mpesaReceiptNumber waiting;
                failureReason := Some (JStr "Request cancelled by user");
                callbackReceived := Some 1455641800000%Z;
                callbackData := stk_cancelled |}).
Proof.
  split; [reflexivity|].
  apply (X13_callback_failure_record 1455641800000%Z callback_cancelled
           world_waiting stk_cancelled (Some (JNum 1032))
           (Some (JStr "Request cancelled by user"))
           0%nat "TXN_1455641787000_k3j9x0q2a" waiting); reflexivity.
Defined.

(** X14. When reading the receipt number throws (an [Item] that is not an
    array, or an item that is [null]), a callback with result code 0 has
    already set the record to [SUCCESS] and stops there: no receipt number,
    no time of callback, no callback kept; the gateway is acknowledged all
    the same. *)
Theorem X14_callback_stops_half_way (now : Z) (req_body : jsval) (w : world)
  (cb rc : jsval) (e : js_error) (i : nat) (k : string) (t : transaction) :
  find_by_callback req_body (transactions w) = Ok (cb, Some i) ->
  nth_error (transactions w) i = Some (k, t) ->
  get_prop cb "ResultCode" = Ok rc ->
  strict_eq rc (Some (JNum 0)) = true ->
  receipt_of cb = Throw e ->
  fst (post_callback now req_body w) = Ok ack
  /\ nth_error (transactions (snd (post_callback now req_body w))) i
     = Some (k,
             {| transactionId := transactionId t;
                checkoutRequestId := checkoutRequestId t;
                merchantRequestId := merchantRequestId t;
                amount := amount t;
                phoneNumber := phoneNumber t;
                accountReference := accountReference t;
                status := SUCCESS;
                timestamp := timestamp t;
                mpesaResponse := mpesaResponse t;
                mpesaReceiptNumber := mpesaReceiptNumber t;
                failureReason := failureReason t;
                callbackReceived := callbackReceived t;
                callbackData := callbackData t |}).
Proof.
  intros H Hn Hrc H0 Hre.
  destruct (callback_updates_record now req_body w cb i H) as (rc' & Hrc' & E).
  rewrite E. simpl. rewrite (update_at_there _ _ _ _ _ Hn).
  assert (rc' = rc) as -> by congruence.
  unfold resolved_by. rewrite H0, Hre. split; reflexivity.
Qed.

Lemma X14_witness :
  receipt_of
    (Some (JObj
       [("CheckoutRequestID", JStr "ws_CO_1");
        ("ResultCode", JNum 0);
        ("ResultDesc", JStr "The service request is processed successfully.");
        ("CallbackMetadata", JObj
           [("Item", JObj [("Name", JStr "MpesaReceiptNumber");
                           ("Value", JStr "NLJ7RT61SV")])])]))
  = Throw TypeError
  /\ fst (post_callback 1455641800000 callback_bad_metadata world_waiting)
     = Ok ack
  /\ nth_error
       (transactions (snd (post_callback 1455641800000 callback_bad_metadata
                             world_waiting))) 0
     = Some ("TXN_1455641787000_k3j9x0q2a",
             {| transactionId := transactionId waiting;
                checkoutRequestId := checkoutRequestId waiting;
                merchantRequestId := merchantRequestId waiting;
                amount := amount waiting;
                phoneNumber := phoneNumber waiting;
                accountReference := accountReference waiting;
                status := SUCCESS;
                timestamp := timestamp waiting;
                mpesaResponse := mpesaResponse waiting;
                mpesaReceiptNumber := mpesaReceiptNumber waiting;
                failureReason := failureReason waiting;
                callbackReceived := callbackReceived waiting;
                callbackData := callbackData waiting |}).
Proof.
  split; [reflexivity|].
  apply (X14_callback_stops_half_way 1455641800000%Z callback_bad_metadata
           world_waiting
           (Some (JObj
              [("CheckoutRequestID", JStr "ws_CO_1");
               ("ResultCode", JNum 0);
               ("ResultDesc",
                JStr "The service request is processed successfully.");
               ("CallbackMetadata", JObj
                  [("Item", JObj [("Name", JStr "MpesaReceiptNumber");
                                  ("Value", JStr "NLJ7RT61SV")])])]))
           (Some (JNum 0)) TypeError
           0%nat "TXN_1455641787000_k3j9x0q2a" waiting); reflexivity.
Defined.

Lemma array_find_first (pred : json -> result bool) (pre post : list json)
  (x : json) :
  Forall (fun it => pred it = Ok false) pre ->
  pred x = Ok true ->
  array_find pred (pre ++ x :: post) = Ok (Some x).
Proof.
  intros Hpre Hx. induction Hpre as [|y pre Hy _ IH]; simpl.
  - now rewrite Hx.
  - now rewrite Hy.
Qed.

(** X15. The receipt number is found by its name, wherever it stands in the
    list of the metadata: when the items in front of it are objects with
    other names, the receipt number of the callback is the [Value] of the
    first item whose [Name] is "MpesaReceiptNumber". *)
Theorem X15_receipt_found_by_name (cb : jsval) (meta : json)
  (pre post : list json) (fs : list (string * json)) :
  get_prop cb "CallbackMetadata" = Ok (Some meta) ->
  get_prop (Some meta) "Item" = Ok (Some (JArr (pre ++ JObj fs :: post))) ->
  Forall (fun it =>
            exists n,
              get_prop (Some it) "Name" = Ok n
              /\ strict_eq n (Some (JStr "MpesaReceiptNumber")) = false) pre ->
  own_property "Name" fs = Some (JStr "MpesaReceiptNumber") ->
  receipt_of cb = Ok (own_property "Value" fs).
Proof.
  intros Hm Hi Hpre Hn. unfold receipt_of. rewrite Hm.
  destruct meta as [| | | | |ms]; try discriminate.
  rewrite Hi. unfold find_opt.
  rewrite array_find_first; [reflexivity| |].
  - eapply Forall_impl; [|exact Hpre].
    intros it (n & Hg & Hs). now rewrite Hg, Hs.
  - simpl. now rewrite Hn.
Qed.

Lemma X15_witness :
  own_property "Name"
    [("Name", JStr "MpesaReceiptNumber"); ("Value", JStr "NLJ7RT61SV")]
  = Some (JStr "MpesaReceiptNumber")
  /\ receipt_of stk_paid = Ok (Some (JStr "NLJ7RT61SV")).
Proof.
  split; [reflexivity|].
  apply (X15_receipt_found_by_name stk_paid
           (JObj
              [("Item", JArr
                 [JObj [("Name", JStr "Amount"); ("Value", JNum 101)];
                  JObj [("Name", JStr "MpesaReceiptNumber");
                        ("Value", JStr "NLJ7RT61SV")];
                  JObj [("Name", JStr "PhoneNumber");
                        ("Value", JNum 254712345678)]])])
           [JObj [("Name", JStr "Amount"); ("Value", JNum 101)]]
           [JObj [("Name", JStr "PhoneNumber"); ("Value", JNum 254712345678)]]
           [("Name", JStr "MpesaReceiptNumber");
            ("Value", JStr "NLJ7RT61SV")]);
    try reflexivity.
  constructor; [|constructor].
  exists (Some (JStr "Amount")). split; reflexivity.
Defined.

Lemma find_from_update_at (pred : transaction -> result bool)
  (f : transaction -> transaction) (i s : nat) (m : store) :
  (forall t, pred (f t) = pred t) ->
  find_from pred s (Map_values (update_at i f m))
  = find_from pred s (Map_values m).
Proof.
  intros Hf. unfold Map_values.
  revert i s; induction m as [|[k t] r IH]; intros [|j] s; simpl;
    try reflexivity.
  - now rewrite Hf.
  - now rewrite IH.
Qed.

Lemma find_by_callback_update_at (req_body : jsval)
  (f : transaction -> transaction) (i : nat) (m : store) :
  (forall t, checkoutRequestId (f t) = checkoutRequestId t) ->
  find_by_callback req_body (update_at i f m) = find_by_callback req_body m.
Proof.
  intros Hf. unfold find_by_callback, find_transaction.
  destruct (get_prop req_body "Body") as [B|]; [|reflexivity].
  destruct (get_prop B "stkCallback") as [cb|]; [|reflexivity].
  rewrite find_from_update_at; [reflexivity|].
  intros t. unfold same_checkout. now rewrite Hf.
Qed.

Lemma resolved_by_checkoutRequestId (now : Z) (cb rc : jsval)
  (t : transaction) :
  checkoutRequestId (resolved_by now cb rc t) = checkoutRequestId t.
Proof.
  unfold resolved_by.
  destruct (strict_eq rc (Some (JNum 0)));
    [destruct (receipt_of cb) | destruct (get_prop cb "ResultDesc")];
    reflexivity.
Qed.

Lemma resolved_by_again (now1 now2 : Z) (cb rc : jsval) (t : transaction) :
  resolved_by now2 cb rc (resolved_by now1 cb rc t) = resolved_by now2 cb rc t.
Proof.
  unfold resolved_by.
  destruct (strict_eq rc (Some (JNum 0)));
    [destruct (receipt_of cb) | destruct (get_prop cb "ResultDesc")];
    reflexivity.
Qed.

Lemma update_at_ext (i : nat) (f g : transaction -> transaction) (m : store) :
  (forall t, f t = g t) -> update_at i f m = update_at i g m.
Proof.
  intros H. revert i; induction m as [|[k t] r IH]; intros [|j]; simpl;
    try reflexivity.
  - now rewrite H.
  - now rewrite IH.
Qed.

(** X16. A callback delivered twice does what the second delivery alone
    would have done: after the same payload has come again, the world is the
    one that this payload, at the time of the second delivery, makes of the
    world before the first.  Status, receipt number and failure reason are
    those of the first delivery; only the time of the callback moves. *)
Theorem X16_callback_replay (now1 now2 : Z) (req_body : jsval) (w : world) :
  snd (post_callback now2 req_body (snd (post_callback now1 req_body w)))
  = snd (post_callback now2 req_body w).
Proof.
  destruct (find_by_callback req_body (transactions w)) as [[cb [i|]]|e] eqn:F.
  - destruct (callback_updates_record now1 req_body w cb i F)
      as (rc & Hrc & E1).
    destruct (callback_updates_record now2 req_body w cb i F)
      as (rc2 & Hrc2 & E2).
    assert (rc2 = rc) as -> by congruence.
    rewrite E1, E2. simpl.
    assert (find_by_callback req_body
              (transactions
                 {| transactions :=
                      update_at i (resolved_by now1 cb rc) (transactions w);
                    calls := calls w |})
            = Ok (cb, Some i)) as F'.
    { simpl. rewrite find_by_callback_update_at; [exact F|].
      intros t. apply resolved_by_checkoutRequestId. }
    destruct (callback_updates_record now2 req_body _ cb i F')
      as (rc3 & Hrc3 & E3).
    assert (rc3 = rc) as -> by congruence.
    rewrite E3. simpl. rewrite update_at_twice.
    f_equal. apply update_at_ext. intros t. apply resolved_by_again.
  - rewrite (callback_without_record now1 req_body w)
      by (intros cb' i'; congruence).
    reflexivity.
  - rewrite (callback_without_record now1 req_body w)
      by (intros cb' i'; congruence).
    reflexivity.
Qed.

Lemma find_from_nowhere (pred : transaction -> result bool) (s : nat)
  (ts : list transaction) :
  Forall (fun t => pred t = Ok false) ts -> find_from pred s ts = Ok None.
Proof.
  intros H. revert s; induction H as [|t r Ht _ IH]; intros s; simpl;
    [reflexivity|].
  rewrite Ht. apply IH.
Qed.

(** X17. A callback with a CheckoutRequestID that no record of the store
    has changes nothing and is acknowledged. *)
Theorem X17_callback_for_unknown_push (now : Z) (req_body : jsval) (w : world)
  (Body cb cid : jsval) :
  get_prop req_body "Body" = Ok Body ->
  get_prop Body "stkCallback" = Ok cb ->
  get_prop cb "CheckoutRequestID" = Ok cid ->
  Forall (fun kt => strict_eq (checkoutRequestId (snd kt)) cid = false)
    (transactions w) ->
  post_callback now req_body w = (Ok ack, w).
Proof.
  intros HB Hcb Hcid Hall.
  apply callback_without_record. intros cb' i.
  unfold find_by_callback, find_transaction. rewrite HB, Hcb.
  rewrite find_from_nowhere; [discriminate|].
  unfold Map_values. apply Forall_map.
  eapply Forall_impl; [|exact Hall].
  intros [k t] H. unfold same_checkout. simpl in *. now rewrite Hcid, H.
Qed.

Lemma X17_witness :
  Forall (fun kt =>
            strict_eq (checkoutRequestId (snd kt)) (Some (JStr "ws_CO_2"))
            = false)
    (transactions world_waiting)
  /\ post_callback 1455641800000 callback_foreign world_waiting
     = (Ok ack, world_waiting).
Proof.
  assert (Forall (fun kt =>
            strict_eq (checkoutRequestId (snd kt)) (Some (JStr "ws_CO_2"))
            = false)
    (transactions world_waiting)) as H
    by (repeat constructor).
  split; [exact H|].
  apply (X17_callback_for_unknown_push 1455641800000%Z callback_foreign
           world_waiting
           (Some (JObj
              [("stkCallback", JObj
                 [("CheckoutRequestID", JStr "ws_CO_2");
                  ("ResultCode", JNum 0)])]))
           (Some (JObj [("CheckoutRequestID", JStr "ws_CO_2");
                        ("ResultCode", JNum 0)]))
           (Some (JStr "ws_CO_2"))); try reflexivity.
  exact H.
Defined.

Lemma post_callback_calls (now : Z) (req_body : jsval) (w : world) :
  calls (snd (post_callback now req_body w)) = calls w.
Proof.
  destruct (find_by_callback req_body (transactions w)) as [[cb [i|]]|e] eqn:F.
  - destruct (callback_updates_record now req_body w cb i F) as (rc & _ & E).
    now rewrite E.
  - now rewrite callback_without_record by (intros cb' i'; congruence).
  - now rewrite callback_without_record by (intros cb' i'; congruence).
Qed.

(** X18. Only the initiation talks to the gateway: a callback, a status
    query, the listing and the health check send nothing out, whatever they
    are given. *)
Theorem X18_no_calls_but_from_initiation (c : api_call) (w : world) :
  calls (snd (handle c w))
  = match c with
    | PostInitiate cfg env req =>
        (calls w ++ calls_made (post_initiate cfg env req) w)%list
    | _ => calls w
    end.
Proof.
  destruct c as [cfg env req|now b|id| |iso]; simpl.
  - unfold calls_made.
    destruct (validatePaymentRequest req) as [[[|e errors] phone]|err] eqn:V.
    + rewrite (post_initiate_calls cfg env req w phone V).
      now rewrite skipn_own_length.
    + rewrite (validation_errors_answer_400 cfg env req w e errors phone V).
      simpl. now rewrite skipn_all, app_nil_r.
    + unfold post_initiate, try_catch, bind, lift. rewrite V. simpl.
      now rewrite skipn_all, app_nil_r.
  - apply post_callback_calls.
  - unfold get_status, bind, get_store, ret.
    now destruct (Map_get id (transactions w)).
  - reflexivity.
  - reflexivity.
Qed.

End CallbackFurther.

(** ** What every world of the server keeps *)

Section Invariants.
Import JsString JsNumber Phone Base64 Config Json Server Fixtures Scenarios.

(** The three things a request can do to the store: nothing, put the
    record of an accepted initiation under its id, or write the outcome of
    a callback into the record found. *)
Lemma handle_store (c : api_call) (w : world) :
  transactions (snd (handle c w)) = transactions w
  \/ (exists cfg env req phone t,
         c = PostInitiate cfg env req
         /\ validatePaymentRequest req = Ok ([], phone)
         /\ fresh_record req phone
              (generateTransactionId (date_now env) (random_suffix env)) t
         /\ transactions (snd (handle c w))
            = Map_set (generateTransactionId (date_now env) (random_suffix env))
                t (transactions w))
  \/ (exists now req_body cb rc i,
         c = PostCallback now req_body
         /\ find_by_callback req_body (transactions w) = Ok (cb, Some i)
         /\ transactions (snd (handle c w))
            = update_at i (resolved_by now cb rc) (transactions w)).
Proof.
  destruct c as [cfg env req|now b|id| |iso]; simpl.
  - unfold post_initiate, try_catch, bind, lift, getAccessToken, try_catch,
      bind, send, await, modify_store, ret, throw, lift.
    destruct (validatePaymentRequest req) as [[[|e errors] phone]|err] eqn:V;
      simpl; try (left; reflexivity).
    destruct (token_reply env) as [data|m]; simpl; try (left; reflexivity).
    destruct (get_prop data "access_token") as [token|]; simpl;
      try (left; reflexivity).
    destruct (push_reply env) as [resp|m]; simpl; try (left; reflexivity).
    destruct (get_prop resp "CheckoutRequestID"); simpl;
      try (left; reflexivity).
    destruct (get_prop resp "MerchantRequestID"); simpl;
      try (left; reflexivity).
    right; left. exists cfg, env, req, phone. eexists.
    split; [reflexivity|]. split; [exact V|].
    destruct (get_prop resp "ResponseCode"); simpl;
      [destruct (get_prop resp "ResponseDescription"); simpl|];
      (split; [|reflexivity]); repeat split.
  - destruct (find_by_callback b (transactions w)) as [[cb [i|]]|e] eqn:F.
    + destruct (callback_updates_record now b w cb i F) as (rc & _ & E).
      right; right. exists now, b, cb, rc, i. rewrite E. auto.
    + left. now rewrite callback_without_record by (intros cb' i'; congruence).
    + left. now rewrite callback_without_record by (intros cb' i'; congruence).
  - left. unfold get_status, bind, get_store, ret.
    now destruct (Map_get id (transactions w)).
  - now left.
  - now left.
Qed.

Lemma Forall_Map_set (Q : string * transaction -> Prop) (k : string)
  (t : transaction) (m : store) :
  Forall Q m -> Q (k, t) -> Forall Q (Map_set k t m).
Proof.
  intros H Hq. induction H as [|[k0 t0] r H0 Hr IH]; simpl.
  - repeat constructor. exact Hq.
  - destruct (String.eqb_spec k0 k) as [->|N]; constructor; auto.
Qed.

Lemma Forall_update_at (Q : string * transaction -> Prop) (i : nat)
  (f : transaction -> transaction) (m : store) :
  Forall Q m -> (forall k t, Q (k, t) -> Q (k, f t)) ->
  Forall Q (update_at i f m).
Proof.
  intros H Hf. revert i; induction H as [|[k0 t0] r H0 Hr IH]; intros [|j];
    simpl; constructor; auto.
Qed.

Section Kept.
Variable P : string -> transaction -> Prop.
Hypothesis P_fresh :
  forall req phone id t,
    validatePaymentRequest req = Ok ([], phone) ->
    fresh_record req phone id t -> P id t.
Hypothesis P_resolved :
  forall k t now cb rc, P k t -> P k (resolved_by now cb rc t).

Lemma kept_by_handle (c : api_call) (w : world) :
  Forall (fun kt => P (fst kt) (snd kt)) (transactions w) ->
  Forall (fun kt => P (fst kt) (snd kt)) (transactions (snd (handle c w))).
Proof.
  intros H.
  destruct (handle_store c w)
    as [-> | [(cfg & env & req & phone & t & _ & V & Hf & ->)
             | (now & b & cb & rc & i & _ & _ & ->)]].
  - exact H.
  - apply Forall_Map_set; [exact H|]. simpl. eapply P_fresh; eauto.
  - apply Forall_update_at; [exact H|]. intros k t. simpl. apply P_resolved.
Qed.

Lemma kept_in_reachable (w : world) :
  reachable w -> Forall (fun kt => P (fst kt) (snd kt)) (transactions w).
Proof.
  induction 1 as [|c w _ IH]; [constructor|]. now apply kept_by_handle.
Qed.

End Kept.

Lemma Map_set_keys (k : string) (t : transaction) (m : store) :
  exists extra,
    map fst (Map_set k t m) = (map fst m ++ extra)%list
    /\ (extra = [] /\ In k (map fst m)
        \/ extra = [k] /\ ~ In k (map fst m)).
Proof.
  induction m as [|[k0 t0] r (extra & E & H)]; simpl.
  - exists [k]. split; [reflexivity|]. right. split; [reflexivity|]. tauto.
  - destruct (String.eqb_spec k0 k) as [->|N]; simpl.
    + exists []. rewrite app_nil_r. split; [reflexivity|]. left. auto.
    + exists extra. rewrite E. split; [reflexivity|].
      destruct H as [[-> Hin] | [-> Hn]]; [left | right]; split; auto.
      intros [?|?]; congruence.
Qed.

Lemma handle_keys (c : api_call) (w : world) :
  exists extra,
    map fst (transactions (snd (handle c w)))
    = (map fst (transactions w) ++ extra)%list
    /\ (extra = []
        \/ exists k, extra = [k] /\ ~ In k (map fst (transactions w))).
Proof.
  destruct (handle_store c w)
    as [-> | [(cfg & env & req & phone & t & _ & V & Hf & ->)
             | (now & b & cb & rc & i & _ & _ & ->)]].
  - exists []. rewrite app_nil_r. auto.
  - destruct (Map_set_keys
                (generateTransactionId (date_now env) (random_suffix env)) t
                (transactions w)) as (extra & E & H).
    exists extra. split; [exact E|].
    destruct H as [[-> _] | [-> Hn]]; [now left | right; eauto].
  - exists []. rewrite app_nil_r, update_at_keys. auto.
Qed.

Lemma reachable_keys_NoDup (w : world) :
  reachable w -> NoDup (map fst (transactions w)).
Proof.
  induction 1 as [|c w _ IH]; [constructor|].
  destruct (handle_keys c w) as (extra & -> & [-> | (k & -> & Hn)]).
  - now rewrite app_nil_r.
  - apply NoDup_app; [exact IH | repeat constructor; intros [] |].
    intros x Hx [<-|[]]. contradiction.
Qed.

Lemma NoDup_Map_get (m : store) (k : string) (t : transaction) :
  NoDup (map fst m) -> In (k, t) m -> Map_get k m = Some t.
Proof.
  induction m as [|[k0 t0] r IH]; simpl; intros Hn Hin; [destruct Hin|].
  inversion_clear Hn as [|? ? Hk Hr].
  destruct Hin as [E | Hin].
  - inversion E; subst. now rewrite String.eqb_refl.
  - destruct (String.eqb_spec k0 k) as [->|N]; [|now apply IH].
    exfalso. apply Hk. change k with (fst (k, t)). now apply in_map.
Qed.

(** X19. In every world that the server can be in, no two records share a
    transaction id: each record carries the id it is stored under, and the
    lookup of that id finds this record. *)
Theorem X19_one_record_per_id (w : world) :
  reachable w ->
  NoDup (map transactionId (Map_values (transactions w)))
  /\ forall k t,
       In (k, t) (transactions w) ->
       transactionId t = k /\ Map_get k (transactions w) = Some t.
Proof.
  intros Hr.
  pose proof (reachable_keys_NoDup w Hr) as Hn.
  pose proof (reachable_well_keyed w Hr) as Hk. unfold well_keyed in Hk.
  split.
  - unfold Map_values. rewrite map_map.
    erewrite map_ext_in; [exact Hn|].
    intros kt Hin. simpl.
    exact (proj1 (Forall_forall _ _) Hk kt Hin).
  - intros k t Hin. split.
    + exact (proj1 (Forall_forall _ _) Hk (k, t) Hin).
    + now apply NoDup_Map_get.
Qed.

Lemma X19_witness :
  reachable
    (snd (handle (PostInitiate sandbox env_accepted valid_request)
            empty_world))
  /\ NoDup
       (map transactionId
          (Map_values
             (transactions
                (snd (handle (PostInitiate sandbox env_accepted valid_request)
                        empty_world)))))
  /\ forall k t,
       In (k, t)
          (transactions
             (snd (handle (PostInitiate sandbox env_accepted valid_request)
                     empty_world))) ->
       transactionId t = k
       /\ Map_get k
            (transactions
               (snd (handle (PostInitiate sandbox env_accepted valid_request)
                       empty_world)))
          = Some t.
Proof.
  assert (reachable
            (snd (handle (PostInitiate sandbox env_accepted valid_request)
                    empty_world))) as H
    by (apply reachable_next, reachable_start).
  split; [exact H|].
  exact (X19_one_record_per_id _ H).
Defined.

(** X20. No request removes a record or moves one: after any request the
    ids of the store are those of before, in their order, with at most one
    new id at the end. *)
Theorem X20_records_are_never_removed (c : api_call) (w : world) :
  exists extra,
    map fst (transactions (snd (handle c w)))
    = (map fst (transactions w) ++ extra)%list
    /\ (List.length extra <= 1)%nat.
Proof.
  destruct (handle_keys c w) as (extra & E & [-> | (k & -> & _)]).
  - exists []. split; [exact E | simpl; lia].
  - exists [k]. split; [exact E | simpl; lia].
Qed.

Lemma resolved_by_status (now : Z) (cb rc : jsval) (t : transaction) :
  status (resolved_by now cb rc t) <> PENDING.
Proof.
  unfold resolved_by.
  destruct (strict_eq rc (Some (JNum 0)));
    [destruct (receipt_of cb) | destruct (get_prop cb "ResultDesc")];
    discriminate.
Qed.

(** X21. In every world that the server can be in, a record that is still
    [PENDING] has seen no callback: it has no receipt number, no failure
    reason, no time of callback and no callback kept. *)
Theorem X21_pending_means_untouched (w : world) (k : string)
  (t : transaction) :
  reachable w -> In (k, t) (transactions w) -> status t = PENDING ->
  mpesaReceiptNumber t = None /\ failureReason t = None
  /\ callbackReceived t = None /\ callbackData t = None.
Proof.
  intros Hr Hin.
  assert (Forall (fun kt => untouched_while_pending (snd kt))
            (transactions w)) as H.
  { apply (kept_in_reachable (fun _ t => untouched_while_pending t));
      [| |exact Hr].
    - intros req phone id t0 _ (_ & _ & _ & _ & _ & H1 & H2 & H3 & H4) _.
      auto.
    - intros k0 t0 now cb rc _ Hs.
      now destruct (resolved_by_status now cb rc t0). }
  exact (proj1 (Forall_forall _ _) H (k, t) Hin).
Qed.

Lemma X21_witness :
  reachable
    (snd (handle (PostInitiate sandbox env_accepted valid_request)
            empty_world))
  /\ In ("TXN_1455641787000_k3j9x0q2a", waiting)
       (transactions
          (snd (handle (PostInitiate sandbox env_accepted valid_request)
                  empty_world)))
  /\ status waiting = PENDING
  /\ mpesaReceiptNumber waiting = None /\ failureReason waiting = None
  /\ callbackReceived waiting = None /\ callbackData waiting = None.
Proof.
  assert (reachable
            (snd (handle (PostInitiate sandbox env_accepted valid_request)
                    empty_world))) as H
    by (apply reachable_next, reachable_start).
  assert (In ("TXN_1455641787000_k3j9x0q2a", waiting)
            (transactions
               (snd (handle (PostInitiate sandbox env_accepted valid_request)
                       empty_world)))) as Hin
    by (vm_compute; left; reflexivity).
  split; [exact H|]. split; [exact Hin|]. split; [reflexivity|].
  exact (X21_pending_means_untouched _ _ _ H Hin eq_refl).
Defined.

Lemma resolved_by_validated (now : Z) (cb rc : jsval) (t : transaction) :
  validated t -> validated (resolved_by now cb rc t).
Proof.
  unfold resolved_by, validated.
  destruct (strict_eq rc (Some (JNum 0)));
    [destruct (receipt_of cb) | destruct (get_prop cb "ResultDesc")];
    simpl; auto.
Qed.

(** X22. In every world that the server can be in, every record holds what
    the validation has let through: a phone number of the form 254 and nine
    digits, an amount for which [amount < 1] is false, and an account
    reference of three characters or more; no callback changes any of
    them. *)
Theorem X22_stored_records_are_validated (w : world) (k : string)
  (t : transaction) :
  reachable w -> In (k, t) (transactions w) ->
  test_canonical (phoneNumber t) = true
  /\ lt_one (amount t) = false
  /\ exists ref, accountReference t = Some ref
                 /\ (3 <= String.length ref)%nat.
Proof.
  intros Hr Hin.
  assert (Forall (fun kt => validated (snd kt)) (transactions w)) as H.
  { apply (kept_in_reachable (fun _ t => validated t)); [| |exact Hr].
    - intros req phone id t0 V (_ & _ & Ha & Hp & Hre & _).
      destruct (validation_passed req phone V)
        as (a & raw & ref & Hra & _ & Hrr & _ & _ & Hlt & _ & Hc & Hl).
      unfold validated. rewrite Ha, Hp, Hre, Hra, Hrr. simpl.
      split; [exact Hc|]. split; [exact Hlt|]. now exists ref.
    - intros k0 t0 now cb rc. apply resolved_by_validated. }
  exact (proj1 (Forall_forall _ _) H (k, t) Hin).
Qed.

Lemma X22_witness :
  reachable
    (snd (handle (PostInitiate sandbox env_accepted valid_request)
            empty_world))
  /\ In ("TXN_1455641787000_k3j9x0q2a", waiting)
       (transactions
          (snd (handle (PostInitiate sandbox env_accepted valid_request)
                  empty_world)))
  /\ test_canonical (phoneNumber waiting) = true
  /\ lt_one (amount waiting) = false
  /\ exists ref, accountReference waiting = Some ref
                 /\ (3 <= String.length ref)%nat.
Proof.
  assert (reachable
            (snd (handle (PostInitiate sandbox env_accepted valid_request)
                    empty_world))) as H
    by (apply reachable_next, reachable_start).
  assert (In ("TXN_1455641787000_k3j9x0q2a", waiting)
            (transactions
               (snd (handle (PostInitiate sandbox env_accepted valid_request)
                       empty_world)))) as Hin
    by (vm_compute; left; reflexivity).
  split; [exact H|]. split; [exact Hin|].
  exact (X22_stored_records_are_validated _ _ _ H Hin).
Defined.

(** X23. The listing and the status query agree: in every world that the
    server can be in, the listing has one item for each record, in the order
    of the store, and each item is what the status query of its id answers;
    the listing changes nothing. *)
Theorem X23_listing_agrees_with_status (w : world) :
  reachable w ->
  exists items,
    get_transactions w = (Ok (res_json (TransactionList items)), w)
    /\ List.length items = List.length (transactions w)
    /\ Forall (fun item =>
                 exists id, get_status id w = (Ok (res_json item), w))
         items.
Proof.
  intros Hr.
  pose proof (reachable_keys_NoDup w Hr) as Hn.
  pose proof (reachable_well_keyed w Hr) as Hk. unfold well_keyed in Hk.
  eexists. split; [reflexivity|]. unfold Map_values.
  split; [now rewrite !length_map|].
  rewrite map_map. apply Forall_map, Forall_forall. intros [k t] Hin. simpl.
  exists (transactionId t).
  pose proof (proj1 (Forall_forall _ _) Hk (k, t) Hin) as E. simpl in E.
  unfold get_status, bind, get_store, ret.
  rewrite E, (NoDup_Map_get _ _ _ Hn Hin). reflexivity.
Qed.

Lemma X23_witness :
  reachable
    (snd (handle (PostInitiate sandbox env_accepted valid_request)
            empty_world))
  /\ exists items,
      get_transactions
        (snd (handle (PostInitiate sandbox env_accepted valid_request)
                empty_world))
      = (Ok (res_json (TransactionList items)),
         snd (handle (PostInitiate sandbox env_accepted valid_request)
                empty_world))
      /\ List.length items
         = List.length
             (transactions
                (snd (handle (PostInitiate sandbox env_accepted valid_request)
                        empty_world)))
      /\ Forall (fun item =>
                   exists id,
                     get_status id
                       (snd (handle
                               (PostInitiate sandbox env_accepted valid_request)
                               empty_world))
                     = (Ok (res_json item),
                        snd (handle
                               (PostInitiate sandbox env_accepted valid_request)
                               empty_world)))
           items.
Proof.
  assert (reachable
            (snd (handle (PostInitiate sandbox env_accepted valid_request)
                    empty_world))) as H
    by (apply reachable_next, reachable_start).
  split; [exact H|].
  exact (X23_listing_agrees_with_status _ H).
Defined.

Lemma find_in_Map_set (pred : transaction -> result bool) (id : string)
  (t : transaction) (m : store) (s : nat) :
  pred t = Ok true ->
  Forall (fun kt => pred (snd kt) = Ok false) m ->
  exists i,
    find_from pred s (Map_values (Map_set id t m)) = Ok (Some (s + i)%nat)
    /\ nth_error (Map_set id t m) i = Some (id, t).
Proof.
  intros Ht H. revert s; induction H as [|[k0 t0] r H0 _ IH]; intros s; simpl.
  - exists 0%nat. rewrite Ht, Nat.add_0_r. auto.
  - destruct (String.eqb_spec k0 id) as [->|N]; simpl.
    + exists 0%nat. rewrite Ht, Nat.add_0_r. auto.
    + simpl in H0. rewrite H0. destruct (IH (S s)) as (i & Hf & Hn).
      exists (S i). rewrite Hf. split; [f_equal; f_equal; lia | exact Hn].
Qed.

Lemma Map_get_update_at (m : store) (i : nat) (k : string) (t : transaction)
  (f : transaction -> transaction) :
  NoDup (map fst m) -> nth_error m i = Some (k, t) ->
  Map_get k (update_at i f m) = Some (f t).
Proof.
  intros Hn Hi. apply NoDup_Map_get.
  - now rewrite update_at_keys.
  - eapply nth_error_In. now apply update_at_there.
Qed.

(** X24. A payment from end to end.  After an initiation that the gateway
    accepts with a CheckoutRequestID that no earlier record has, a callback
    with this CheckoutRequestID resolves the new record, and the status
    query of the id that the initiation has answered with reports
    [SUCCESS] with the receipt number of the callback when the result code
    is 0, and [FAILED] without receipt number otherwise, with the amount,
    the phone number and the time of the initiation. *)
Theorem X24_payment_from_end_to_end (cfg : config) (env : initiate_env)
  (req : initiate_request) (w : world) (phone : string)
  (data resp token cid : jsval) (now : Z)
  (req_body Body cb cid' rc : jsval) :
  reachable w ->
  validatePaymentRequest req = Ok ([], phone) ->
  token_reply env = Resolved data ->
  get_prop data "access_token" = Ok token ->
  push_reply env = Resolved resp ->
  get_prop resp "CheckoutRequestID" = Ok cid ->
  get_prop req_body "Body" = Ok Body ->
  get_prop Body "stkCallback" = Ok cb ->
  get_prop cb "CheckoutRequestID" = Ok cid' ->
  get_prop cb "ResultCode" = Ok rc ->
  strict_eq cid cid' = true ->
  Forall (fun kt => strict_eq (checkoutRequestId (snd kt)) cid' = false)
    (transactions w) ->
  let id := generateTransactionId (date_now env) (random_suffix env) in
  fst (get_status id
         (snd (post_callback now req_body
                 (snd (post_initiate cfg env req w)))))
  = Ok (res_json
          (StatusFound id
             (if strict_eq rc (Some (JNum 0)) then SUCCESS else FAILED)
             (parseFloat_value (req_amount req)) phone (stored_at env)
             (if strict_eq rc (Some (JNum 0))
              then match receipt_of cb with
                   | Ok receipt => receipt
                   | Throw _ => None
                   end
              else None))).
Proof.
  intros Hr V Ht Hk Hp Hc HB Hcb Hcid Hrc Heq Hall id.
  assert (reachable (snd (post_initiate cfg env req w))) as Hr1
    by exact (reachable_next (PostInitiate cfg env req) w Hr).
  destruct (post_initiate_accepted cfg env req w phone data resp token cid
              V Ht Hk Hp Hc) as (mid & rc0 & rd & _ & _ & _ & E).
  rewrite E in *. simpl snd in *. fold id in Hr1 |- *.
  set (t := {| transactionId := id; checkoutRequestId := cid;
               merchantRequestId := mid;
               amount := parseFloat_value (req_amount req);
               phoneNumber := phone;
               accountReference := req_accountReference req;
               status := PENDING; timestamp := stored_at env;
               mpesaResponse := resp; mpesaReceiptNumber := None;
               failureReason := None; callbackReceived := None;
               callbackData := None |}) in *.
  set (w1 := {| transactions := Map_set id t (transactions w);
                calls := (calls w
                          ++ [oauth_call cfg;
                              push_call cfg env req phone token])%list |})
    in *.
  destruct (find_in_Map_set (same_checkout cb) id t (transactions w) 0)
    as (i & Hf & Hn).
  { unfold same_checkout. rewrite Hcid. simpl. now rewrite Heq. }
  { eapply Forall_impl; [|exact Hall]. intros [k0 t0] H0.
    unfold same_checkout. rewrite Hcid. simpl in *. now rewrite H0. }
  assert (find_by_callback req_body (transactions w1) = Ok (cb, Some i)) as F.
  { unfold find_by_callback, find_transaction. rewrite HB, Hcb.
    simpl transactions. now rewrite Hf. }
  destruct (callback_updates_record now req_body w1 cb i F)
    as (rc' & Hrc' & E2).
  assert (rc' = rc) as -> by congruence.
  rewrite E2. unfold get_status, bind, get_store, ret. simpl.
  rewrite (Map_get_update_at _ i id t);
    [|exact (reachable_keys_NoDup _ Hr1) | exact Hn].
  destruct (find_by_callback_not_null _ _ _ _ F "ResultDesc") as (rd' & Hrd).
  unfold resolved_by. rewrite Hrd.
  destruct (strict_eq rc (Some (JNum 0)));
    [destruct (receipt_of cb)|]; reflexivity.
Qed.

Lemma X24_witness :
  reachable empty_world
  /\ validatePaymentRequest valid_request = Ok ([], "254712345678")
  /\ fst (get_status
            (generateTransactionId (date_now env_accepted)
               (random_suffix env_accepted))
            (snd (post_callback 1455641800000 callback_paid
                    (snd (post_initiate sandbox env_accepted valid_request
                            empty_world)))))
     = Ok (res_json
             (StatusFound
                (generateTransactionId (date_now env_accepted)
                   (random_suffix env_accepted))
                (if strict_eq (Some (JNum 0)) (Some (JNum 0))
                 then SUCCESS else FAILED)
                (parseFloat_value (req_amount valid_request))
                "254712345678" (stored_at env_accepted)
                (if strict_eq (Some (JNum 0)) (Some (JNum 0))
                 then match receipt_of stk_paid with
                      | Ok receipt => receipt
                      | Throw _ => None
                      end
                 else None))).
Proof.
  split; [exact reachable_start|]. split; [reflexivity|].
  apply (X24_payment_from_end_to_end sandbox env_accepted valid_request
           empty_world "254712345678" (Some token_response)
           (Some accepted_push) (Some (JStr "c9SQxWWhmdVRlyh0zh8gZDTkubVF"))
           (Some (JStr "ws_CO_1")) 1455641800000%Z callback_paid
           (Some (JObj [("stkCallback",
                         match stk_paid with Some j => j | None => JNull end)]))
           stk_paid (Some (JStr "ws_CO_1")) (Some (JNum 0)));
    try reflexivity.
  - exact reachable_start.
  - constructor.
Defined.

End Invariants.

(** ** The wizard, further *)

Section WizardFurther.
Import JsString JsNumber Phone Wizard Client.

Lemma checked_initial : checked initial.
Proof.
  split; [reflexivity|]. split; intros H; now destruct H.
Qed.

Lemma amount_check_passed (a : string) :
  negb (truthy (Some a)) || lt_one (parseFloat a) = false ->
  a <> EmptyString /\ lt_one (parseFloat a) = false.
Proof.
  intros H. apply orb_false_elim in H as [H1 H2].
  split; [|exact H2]. destruct a; [discriminate|congruence].
Qed.

Lemma pin_check_passed (n : string) :
  negb (String.length n =? 4)%nat = false -> String.length n = 4%nat.
Proof.
  intros H. apply negb_false_iff in H. now apply Nat.eqb_eq.
Qed.

Ltac checked_goal Hpin Ham Hph :=
  split; [| split]; simpl;
  [ first [ exact Hpin | reflexivity | apply strip_non_digits_digits ]
  | let Hs := fresh "Hs" in
    intros Hs;
    first [ now destruct Hs
          | apply Ham; discriminate
          | now apply amount_check_passed ]
  | let Hs1 := fresh "Hs" in
    let Hs2 := fresh "Hs" in
    intros Hs1 Hs2;
    first [ now destruct Hs1 | now destruct Hs2
          | apply Hph; discriminate
          | now apply negb_false_iff ] ].

(** Every event keeps the form checked, and a request goes out only from a
    form that has passed all three steps. *)
Lemma dispatch_checked (e : event) (w : wizard) :
  checked w ->
  checked (fst (dispatch e w))
  /\ Forall from_checked_form (snd (dispatch e w)).
Proof.
  intros (Hpin & Ham & Hph).
  destruct w as [s [a p n] l r]. simpl in *.
  destruct s, e; unfold dispatch; simpl;
    unfold handleAmountSubmit, handlePhoneSubmit, handlePinSubmit,
      handleInputChange, initiatePayment_resolve, initiatePayment_start;
    simpl;
    repeat match goal with
           | |- context [if ?b then _ else _] => destruct b eqn:?; simpl
           | |- context [match ?x with _ => _ end] => destruct x eqn:?; simpl
           end;
    split.
  all: try (checked_goal Hpin Ham Hph).
  all: try (constructor; fail).
  all: (constructor; [|constructor];
            exists now, {| amount := a; phoneNumber := p; pin := n |};
            simpl; split; [reflexivity|];
            destruct Ham as [H1 H2]; [discriminate|];
            repeat split; auto using pin_check_passed;
            apply Hph; discriminate).
Qed.

Lemma run_checked (es : list event) (w : wizard) :
  checked w ->
  checked (fst (run es w)) /\ Forall from_checked_form (snd (run es w)).
Proof.
  revert w; induction es as [|e r IH]; intros w H; simpl.
  - split; [exact H | constructor].
  - destruct (dispatch_checked e w H) as [H1 O1].
    destruct (dispatch e w) as [w1 o1]. simpl in *.
    destruct (IH w1 H1) as [H2 O2].
    destruct (run r w1) as [w2 o2]. simpl in *.
    split; [exact H2 | now apply Forall_app].
Qed.

(** X25. The wizard sends nothing that has not passed its three steps:
    whatever the customer does, every request that goes out carries an
    amount that is not empty and not below 1, a phone number of the form
    254 and nine digits, and was released by a PIN of exactly four
    digits. *)
Theorem X25_only_checked_forms_are_sent (es : list event) :
  Forall from_checked_form (snd (run es initial)).
Proof. exact (proj2 (run_checked es initial checked_initial)). Qed.

(** X26. The wizard and the server together: of a request that the wizard
    has sent, the server's validation accepts the phone number as it is and
    the account reference, always; it can reject the amount only, and does
    so exactly when [Number] does not read as a number what [parseFloat]
    has read for the wizard. *)
Theorem X26_server_validation_of_wizard_requests (es : list event) :
  Forall (fun r =>
            exists a p,
              body_field "amount" (request_body r) = Some a
              /\ body_field "phoneNumber" (request_body r) = Some p
              /\ Server.validatePaymentRequest (server_request_of r)
                 = Json.Ok (if isNaN (Some a) then ["Invalid amount"] else [],
                            p))
    (snd (run es initial)).
Proof.
  eapply Forall_impl; [|exact (proj2 (run_checked es initial checked_initial))].
  intros r (now & fd & -> & Hne & Hlt & Hc & _ & _).
  exists (amount fd), (phoneNumber fd).
  split; [reflexivity|]. split; [reflexivity|].
  rewrite (validation_checks _ (phoneNumber fd)) by reflexivity.
  unfold server_request_of. simpl.
  rewrite (formatPhoneNumber_canonical _ Hc), Hc, Hlt.
  destruct (amount fd) as [|c a]; [congruence|]. simpl.
  now destruct (isNaN (Some (String c a))).
Qed.

(** An amount that the wizard lets through and the server sends back. *)
Example wizard_amount_rejected_by_server :
  exists r,
    snd (run session_12abc initial) = [r]
    /\ Server.validatePaymentRequest (server_request_of r)
       = Json.Ok (["Invalid amount"], "254712345678").
Proof. eexists. split; reflexivity. Qed.

Lemma dispatch_in_flight (e : event) (w : wizard) :
  (List.length (snd (dispatch e w)) + in_processing w
   <= (if is_fetch_done e then 1 else 0) + in_processing (fst (dispatch e w)))%nat.
Proof.
  destruct w as [s fd l r].
  destruct s, e; unfold dispatch, in_processing; simpl; try lia;
    unfold handleAmountSubmit, handlePhoneSubmit, handlePinSubmit,
      handleInputChange, initiatePayment_resolve, initiatePayment_start;
    simpl;
    repeat match goal with
           | |- context [if ?b then _ else _] => destruct b; simpl
           | |- context [match ?x with _ => _ end] => destruct x; simpl
           end; lia.
Qed.

Lemma run_in_flight (es : list event) (w : wizard) :
  (List.length (snd (run es w)) + in_processing w
   <= List.length (filter is_fetch_done es) + in_processing (fst (run es w)))%nat.
Proof.
  revert w; induction es as [|e r IH]; intros w; simpl; [lia|].
  pose proof (dispatch_in_flight e w) as H.
  destruct (dispatch e w) as [w1 o1]. specialize (IH w1).
  destruct (run r w1) as [w2 o2]. simpl in *.
  rewrite length_app.
  destruct (is_fetch_done e); simpl; lia.
Qed.

(** X27. The wizard has at most one initiation under way: in every session
    the requests sent are at most the answers received, plus one while the
    wizard is in the processing step; a second request goes out only after
    the first has been answered. *)
Theorem X27_one_request_at_a_time (es : list event) :
  (List.length (snd (run es initial))
   <= List.length (filter is_fetch_done es)
      + in_processing (fst (run es initial)))%nat.
Proof.
  pose proof (run_in_flight es initial) as H.
  unfold in_processing at 1 in H. simpl in H. lia.
Qed.

Lemma dispatch_success (e : event) (w : wizard) :
  step (fst (dispatch e w)) = step_success ->
  step w = step_success \/ accepted e.
Proof.
  destruct w as [s fd l r].
  destruct s, e; unfold dispatch; simpl; auto;
    unfold handleAmountSubmit, handlePhoneSubmit, handlePinSubmit,
      handleInputChange, initiatePayment_resolve, initiatePayment_start;
    simpl;
    try (repeat match goal with
                | |- context [if ?b then _ else _] => destruct b; simpl
                end; discriminate).
  destruct o as [|st [d|]]; simpl; try discriminate.
  destruct (response_ok st) eqn:Eo; simpl; [|discriminate].
  destruct (ResponseCode d) as [c|] eqn:Ec; simpl; [|discriminate].
  destruct (String.eqb_spec c "0") as [->|]; simpl; [|discriminate].
  intros _. right. now exists st, d.
Qed.

Lemma run_success (es : list event) (w : wizard) :
  step (fst (run es w)) = step_success ->
  step w = step_success \/ Exists accepted es.
Proof.
  revert w; induction es as [|e r IH]; intros w; simpl; [auto|].
  pose proof (dispatch_success e w) as Hd.
  destruct (dispatch e w) as [w1 o1]. specialize (IH w1).
  destruct (run r w1) as [w2 o2]. simpl in *.
  intros H. destruct (IH H) as [H1 | H1]; [|right; now constructor 2].
  destruct (Hd H1) as [H2 | H2]; [now left | right; now constructor 1].
Qed.

Definition past_pin (w : wizard) : bool :=
  match step w with
  | step_processing | step_success | step_error => true
  | _ => false
  end.

Lemma dispatch_past_pin (e : event) (w : wizard) :
  past_pin (fst (dispatch e w)) = true ->
  past_pin w = true \/ snd (dispatch e w) <> [].
Proof.
  destruct w as [s fd l r].
  destruct s, e; unfold dispatch, past_pin; simpl; auto;
    unfold handleAmountSubmit, handlePhoneSubmit, handlePinSubmit,
      handleInputChange, initiatePayment_resolve, initiatePayment_start;
    simpl;
    repeat match goal with
           | |- context [if ?b then _ else _] => destruct b; simpl
           end; auto; right; discriminate.
Qed.

Lemma run_past_pin (es : list event) (w : wizard) :
  past_pin (fst (run es w)) = true ->
  past_pin w = true \/ snd (run es w) <> [].
Proof.
  revert w; induction es as [|e r IH]; intros w; simpl; [auto|].
  pose proof (dispatch_past_pin e w) as Hd.
  destruct (dispatch e w) as [w1 o1]. specialize (IH w1).
  destruct (run r w1) as [w2 o2]. simpl in *.
  intros H. destruct (IH H) as [H1 | H1].
  - destruct (Hd H1) as [H2 | H2]; [now left | right].
    destruct o1; [congruence | discriminate].
  - right. destruct o1; [exact H1 | discriminate].
Qed.

(** X28. The wizard shows success only for a payment that the server has
    accepted: a session that ends in the success step has sent a request
    and has received a 2xx answer whose [ResponseCode] is "0". *)
Theorem X28_success_only_after_acceptance (es : list event) :
  step (fst (run es initial)) = step_success ->
  Exists accepted es /\ snd (run es initial) <> [].
Proof.
  intros H. split.
  - destruct (run_success es initial H) as [H1 | H1];
      [discriminate | exact H1].
  - destruct (run_past_pin es initial) as [H1 | H1];
      [unfold past_pin; now rewrite H | discriminate | exact H1].
Qed.

Lemma X28_witness :
  step (fst (run session_paid initial)) = step_success
  /\ Exists accepted session_paid
  /\ snd (run session_paid initial) <> [].
Proof.
  split; [reflexivity|].
  exact (X28_success_only_after_acceptance session_paid eq_refl).
Defined.

End WizardFurther.

(** ** The credential of the token request *)

Section TokenCredential.
Import JsString Base64 Config Json Server Fixtures.

(** X3. With a consumer key and a consumer secret configured, the token
    request carries "Basic " and the base64 text of key, a colon and
    secret, which decodes back to exactly these bytes. *)
Theorem X3_basic_credential (cfg : config) (key secret : string) :
  consumerKey cfg = Some key ->
  consumerSecret cfg = Some secret ->
  oauth_call cfg
  = OAuthGet
      (baseURL cfg ++ "/oauth/v1/generate?grant_type=client_credentials")
      ("Basic " ++ encode (utf8 key ++ utf8 ":" ++ utf8 secret)%list)
  /\ decode (basic_auth cfg)
     = Some (utf8 key ++ utf8 ":" ++ utf8 secret)%list.
Proof.
  intros Hk Hs. unfold oauth_call, basic_auth.
  rewrite to_base64_reversible. unfold to_base64.
  rewrite Hk, Hs. simpl interpolate. rewrite !utf8_app. split; reflexivity.
Qed.

Lemma X3_witness :
  consumerKey sandbox = Some "key"
  /\ consumerSecret sandbox = Some "secret"
  /\ oauth_call sandbox
     = OAuthGet
         (baseURL sandbox ++ "/oauth/v1/generate?grant_type=client_credentials")
         ("Basic " ++ encode (utf8 "key" ++ utf8 ":" ++ utf8 "secret")%list)
  /\ decode (basic_auth sandbox)
     = Some (utf8 "key" ++ utf8 ":" ++ utf8 "secret")%list.
Proof.
  split; [reflexivity|]. split; [reflexivity|].
  apply (X3_basic_credential sandbox "key" "secret"); reflexivity.
Defined.

End TokenCredential.
